(** * llamanator: the template gateway of [main.go]

    A shallow embedding of [main.go] (package [main]) and the properties
    of its request pipeline: bearer authentication, prompt rendering,
    backend payload construction, response projection and the template
    registry bootstrap.

    Go strings are byte strings: [string] with one [ascii] per byte.
    Go maps with string keys are [gmap string _]; a nil map is [None]
    where the difference matters (writing to a nil map panics). *)

From Stdlib Require Import ZArith String Ascii.
From Stdlib Require Import Floats.SpecFloat.
From stdpp Require Import base strings gmap list.

Set Warnings "-register-all".
Set Default Proof Using "Type".

Local Open Scope string_scope.
Local Open Scope Z_scope.

(** ** Results of fallible calls: Go's [(value, error)] pairs *)

Inductive result (A : Type) : Type :=
  | Ok (a : A)
  | Err (e : string).
Arguments Ok {A} a.
Arguments Err {A} e.

(** ** Values of type [interface{}] as [encoding/json] produces them:
    nil, bool, float64, string, []interface{} and map[string]interface{}. *)

Inductive Value : Type :=
  | VNil
  | VBool (b : bool)
  | VFloat64 (f : spec_float)
  | VString (s : string)
  | VSlice (l : list Value)
  | VMap (m : gmap string Value).

(** The comma-ok type assertion [v.(string)] on the result of a map read:
    a missing key reads as the nil interface, which is not a string. *)
Definition assert_string (v : option Value) : option string :=
  match v with
  | Some (VString s) => Some s
  | _ => None
  end.

(** ** The structs of [main.go] *)

Record TemplateData : Type := { Query : string }.

(** ** [html/template], as far as [main.go] uses it *)

Module HtmlTemplate.

(** A compiled [*template.Template] is modelled by what [main.go] can
    observe of it: its name and the outcome of [Execute] on a
    [TemplateData]. *)
Record Template : Type := {
  Name : string;
  Execute : TemplateData -> result string
}.

(** [htmlReplacementTable] of html/template: the runes escaped in a text
    node. All of them are ASCII, so a byte of a multi-byte sequence is
    never in the table and the replacement can be done byte by byte. *)
Definition htmlReplacementTable (c : ascii) : option string :=
  match N_of_ascii c with
  | 0%N => Some (String "239" (String "191" (String "189" "")))
  | 34%N => Some "&#34;"
  | 38%N => Some "&amp;"
  | 39%N => Some "&#39;"
  | 43%N => Some "&#43;"
  | 60%N => Some "&lt;"
  | 62%N => Some "&gt;"
  | _ => None
  end.

(** [htmlReplacer(s, htmlReplacementTable, true)], which [htmlEscaper]
    applies to a plain string. *)
Fixpoint htmlEscaper (s : string) : string :=
  match s with
  | EmptyString => EmptyString
  | String c s' =>
      match htmlReplacementTable c with
      | Some repl => repl +:+ htmlEscaper s'
      | None => String c (htmlEscaper s')
      end
  end.

(** The parse tree of the fragment covered here: literal text and field
    actions [{{.Ident}}]. *)
Inductive Node : Type :=
  | TextNode (text : string)
  | FieldNode (ident : string).

(** Field lookup on a [TemplateData] value: [Query] is its only field;
    any other identifier is an execution error. *)
Definition evalField (data : TemplateData) (ident : string) : result string :=
  if decide (ident = "Query") then Ok (Query data)
  else Err ("can't evaluate field " +:+ ident +:+ " in type main.TemplateData").

(** Execution of an escaped tree. Every action of the fragment is in
    the HTML text context (no literal text contains [<]), where
    html/template appends [htmlEscaper] to the pipeline. *)
Fixpoint exec (nodes : list Node) (data : TemplateData) : result string :=
  match nodes with
  | [] => Ok ""
  | TextNode text :: rest =>
      match exec rest data with
      | Ok out => Ok (text +:+ out)
      | Err e => Err e
      end
  | FieldNode ident :: rest =>
      match evalField data ident with
      | Ok v =>
          match exec rest data with
          | Ok out => Ok (htmlEscaper v +:+ out)
          | Err e => Err e
          end
      | Err e => Err e
      end
  end.

(** Lexing: the text before the first left delimiter, and what follows
    that delimiter. *)
Fixpoint find_open (s : string) : string * option string :=
  match s with
  | EmptyString => (EmptyString, None)
  | String "{" (String "{" rest) => (EmptyString, Some rest)
  | String c s' => let (t, r) := find_open s' in (String c t, r)
  end.

Fixpoint find_close (s : string) : option (string * string) :=
  match s with
  | EmptyString => None
  | String "}" (String "}" rest) => Some (EmptyString, rest)
  | String c s' =>
      match find_close s' with
      | Some (t, r) => Some (String c t, r)
      | None => None
      end
  end.

Definition is_space (c : ascii) : bool :=
  bool_decide (c = " "%char) || bool_decide (c = "009"%char).

Fixpoint trim_left (s : string) : string :=
  match s with
  | String c s' => if is_space c then trim_left s' else s
  | EmptyString => EmptyString
  end.

Fixpoint trim_right (s : string) : string :=
  match s with
  | EmptyString => EmptyString
  | String c s' =>
      match trim_right s' with
      | EmptyString => if is_space c then EmptyString else String c EmptyString
      | t => String c t
      end
  end.

Definition is_ident_start (c : ascii) : bool :=
  let n := N_of_ascii c in
  ((65 <=? n) && (n <=? 90) || (97 <=? n) && (n <=? 122) || (n =? 95))%N.

Definition is_ident_char (c : ascii) : bool :=
  let n := N_of_ascii c in
  (is_ident_start c || (48 <=? n) && (n <=? 57))%N.

Fixpoint all_chars (p : ascii -> bool) (s : string) : bool :=
  match s with
  | EmptyString => true
  | String c s' => p c && all_chars p s'
  end.

(** The inside of an action of the fragment: a dot and one identifier. *)
Definition parse_action (inner : string) : option Node :=
  match trim_right (trim_left inner) with
  | String "." (String c ident) =>
      if is_ident_start c && all_chars is_ident_char ident
      then Some (FieldNode (String c ident))
      else None
  | _ => None
  end.

Definition is_plain_text (text : string) : bool :=
  all_chars (fun c => negb (bool_decide (c = "<"%char))) text.

Definition text_node (text : string) : list Node :=
  match text with
  | EmptyString => []
  | _ => [TextNode text]
  end.

Fixpoint parse_nodes (fuel : nat) (s : string) : option (list Node) :=
  match fuel with
  | O => None
  | S fuel' =>
      match find_open s with
      | (text, None) =>
          if is_plain_text text then Some (text_node text) else None
      | (text, Some after) =>
          if is_plain_text text then
            match find_close after with
            | Some (inner, rest) =>
                match parse_action inner, parse_nodes fuel' rest with
                | Some action, Some nodes => Some ((text_node text ++ action :: nodes)%list)
                | _, _ => None
                end
            | None => None
            end
          else None
      end
  end.

(** [template.New(name).Parse(text)] on the fragment. [None] stands for
    everything else: a text Go rejects, or one that uses more of the
    template language than text and [{{.Ident}}] in the text context. *)
Definition Parse (name text : string) : option Template :=
  match parse_nodes (S (String.length text)) text with
  | Some nodes => Some {| Name := name; Execute := exec nodes |}
  | None => None
  end.

End HtmlTemplate.

Import HtmlTemplate.

(** [processTemplate] (main.go:142): execute into a buffer; on an error
    the buffer is dropped. *)
Definition processTemplate (tmpl : Template) (data : TemplateData) : result string :=
  match Execute tmpl data with
  | Err err => Err err
  | Ok processedTemplate => Ok processedTemplate
  end.

(** ** [strings] and [path/filepath] *)

Definition LF : string := String "010" EmptyString.

(** [s[i:]]: the run-time check of a slice expression with a low bound
    only; [None] is the panic "slice bounds out of range". *)
Definition slice_from (s : string) (i : Z) : option string :=
  if (i <? 0) || (Z.of_nat (String.length s) <? i) then None
  else Some (String.substring (Z.to_nat i) (String.length s - Z.to_nat i) s).

Fixpoint has_prefix (s prefix : string) {struct prefix} : bool :=
  match prefix, s with
  | EmptyString, _ => true
  | String p prefix', String c s' => bool_decide (c = p) && has_prefix s' prefix'
  | String _ _, EmptyString => false
  end.

(** The scan of [strings.Replace] with [n = -1] and a non-empty [old]:
    left to right, each match replaced and skipped, matches never
    overlapping. [skip] counts the bytes of a match still to pass. *)
Fixpoint replace_scan (old new : string) (skip : nat) (s : string) : string :=
  match s with
  | EmptyString => EmptyString
  | String c s' =>
      match skip with
      | S k => replace_scan old new k s'
      | O =>
          if has_prefix s old
          then new +:+ replace_scan old new (String.length old - 1) s'
          else String c (replace_scan old new O s')
      end
  end.

(** Whether the first byte of [s] exists and lies in [lo..hi]. *)
Definition in_range (lo hi : N) (s : string) : bool :=
  match s with
  | String c _ => ((lo <=? N_of_ascii c) && (N_of_ascii c <=? hi))%N
  | EmptyString => false
  end.

Definition tail (s : string) : string :=
  match s with
  | String _ s' => s'
  | EmptyString => EmptyString
  end.

(** The width [utf8.DecodeRuneInString] reports for the first rune of a
    string: the length of a well-formed UTF-8 sequence, and 1 for a byte
    that starts none. *)
Definition rune_width (s : string) : nat :=
  match s with
  | EmptyString => 0
  | String c s1 =>
      let b := N_of_ascii c in
      let s2 := tail s1 in
      let s3 := tail s2 in
      let cont := in_range 128 191 in
      if (b <? 194)%N then 1
      else if (b <=? 223)%N then (if cont s1 then 2 else 1)
      else if (b <=? 239)%N then
        let second :=
          if (b =? 224)%N then in_range 160 191 s1
          else if (b =? 237)%N then in_range 128 159 s1
          else cont s1 in
        if second && cont s2 then 3 else 1
      else if (b <=? 244)%N then
        let second :=
          if (b =? 240)%N then in_range 144 191 s1
          else if (b =? 244)%N then in_range 128 143 s1
          else cont s1 in
        if second && cont s2 && cont s3 then 4 else 1
      else 1
  end%nat.

(** [strings.Replace] with [n = -1] and an empty [old]: [new] is put
    after every rune ([left] counts the bytes of the current rune still
    to copy), and once in front. *)
Fixpoint insert_scan (new : string) (left : nat) (s : string) : string :=
  match s with
  | EmptyString => EmptyString
  | String c s' =>
      match (match left with O => rune_width s | S _ => left end) with
      | S (S k) => String c (insert_scan new (S k) s')
      | _ => String c (new +:+ insert_scan new O s')
      end
  end.

(** [strings.ReplaceAll(s, old, new)] *)
Definition ReplaceAll (s old new : string) : string :=
  if bool_decide (old = new) then s
  else
    match old with
    | EmptyString => new +:+ insert_scan new O s
    | String _ _ => replace_scan old new O s
    end.

(** [filepath.Ext]: scanning back from the end, the suffix at the first
    dot met before any path separator. [ext_scan] is [Some] once the tail
    has decided the answer. *)
Fixpoint ext_scan (path : string) : option string :=
  match path with
  | EmptyString => None
  | String c rest =>
      match ext_scan rest with
      | Some e => Some e
      | None =>
          if bool_decide (c = "."%char) then Some path
          else if bool_decide (c = "/"%char) then Some EmptyString
          else None
      end
  end.

Definition filepath_Ext (path : string) : string :=
  default EmptyString (ext_scan path).

(** ** The remaining structs of [main.go] *)

(** [OllamaParams] is a Go map, that is a reference to one map object.
    The [Config] lives in the program state below, and this field is the
    object itself: every name for the map (the field, or a local variable
    assigned from it) reads and writes this one value. [None] is the nil
    map of a configuration file without [ollama_params]. *)
Record Config : Type := {
  ServerAddress : string;
  APIURL : string;
  APIKey : string;
  SystemPrompt : string;
  AuthToken : string;
  DefaultModel : string;
  OllamaParams : option (gmap string Value);
  ResponseFields : list string;
  RequestTimeout : Z;
  StripNewline : bool
}.

Record TemplateConfig : Type := {
  Templates : gmap string Template;
  Params : option (gmap string (gmap string Value));
  Fields : option (gmap string (list string));
  RequestTimeouts : option (gmap string Z)
}.

Record OllamaResponse : Type := {
  Model : string;
  CreatedAt : string;
  Response : string;
  Done : bool;
  Context : list Value;
  TotalDuration : Z;
  LoadDuration : Z;
  PromptEvalCount : Z;
  PromptEvalDuration : Z;
  EvalCount : Z;
  EvalDuration : Z
}.

(** ** [net/http] *)

Definition http_Header : Type := gmap string (list string).

Definition Header_Get (h : http_Header) (key : string) : string :=
  match h !! key with
  | Some (v :: _) => v
  | _ => EmptyString
  end.

Definition Header_Add (h : http_Header) (key value : string) : http_Header :=
  <[key := (default [] (h !! key) ++ [value])%list]> h.

(** An [*http.Request], inbound or outbound. [Deadline] is the timeout of
    its context in nanoseconds, when it has one. *)
Record Request : Type := {
  Method : string;
  URL : string;
  Header : http_Header;
  Body : string;
  RemoteAddr : string;
  Deadline : option Z
}.

(** What a handler wrote to its [http.ResponseWriter]. *)
Record Written : Type := {
  StatusCode : Z;
  ContentType : string;
  Payload : string
}.

Definition StatusOK : Z := 200.
Definition StatusBadRequest : Z := 400.
Definition StatusUnauthorized : Z := 401.
Definition StatusInternalServerError : Z := 500.

(** ** The libraries [main.go] calls, as parameters

    The byte-level behaviour of [encoding/json], [net/http]'s client and
    the template parser is not part of [main.go]; the handlers are
    defined, and their properties proved, for every behaviour of these
    calls. [None] is a call that returns an error. *)
Class Library : Type := {
  (** [json.NewDecoder(body).Decode(&m)] for [m map[string]interface{}]:
      the decoding of the first JSON value of the body *)
  json_Decode : string -> option (gmap string Value);
  (** [json.Marshal] of a [map[string]interface{}], nil or not *)
  json_Marshal : option (gmap string Value) -> option string;
  (** [json.Unmarshal(body, &r)] for [r OllamaResponse] *)
  json_Unmarshal_OllamaResponse : string -> option OllamaResponse;
  (** [json.Unmarshal(body, &m)] for an empty [m map[string]interface{}] *)
  json_Unmarshal_map : string -> option (gmap string Value);
  (** whether [http.NewRequestWithContext] accepts the method and URL *)
  http_NewRequest_ok : string -> string -> bool;
  (** [client.Do(req)] followed by [io.ReadAll(resp.Body)], for the call
      made after [n] earlier ones: the outer [None] is a failed [Do], the
      inner one a failed read *)
  client_Do : nat -> Request -> option (option string);
  (** [template.New(name).Parse(text)] *)
  template_Parse : string -> string -> option Template;
  (** [os.MkdirAll(path, perm)] on a missing [path], as far as the other
      directories go: their listings after the call, given the listings
      before it and whether the call fails. The call creates the missing
      parents of [path] one by one, so that the listing of an ancestor
      gains an entry; a call that fails may have created some of them. *)
  os_MkdirAll : string -> bool -> gmap string (list (string * option string)) ->
                gmap string (list (string * option string))
}.

(** ** Program state and the handler monad *)

Record State : Type := {
  config : Config;            (* the object the shared [*Config] points to *)
  sent : list Request;        (* requests given to [client.Do], oldest first *)
  written : option Written    (* the [ResponseWriter] of the request served *)
}.

(** How a statement ends: it falls through with a value, the enclosing
    function returns, or the goroutine panics. *)
Inductive Flow (A : Type) : Type :=
  | Next (a : A)
  | Return
  | Panic.
Arguments Next {A} a.
Arguments Return {A}.
Arguments Panic {A}.

Definition with_OllamaParams (c : Config) (m : option (gmap string Value)) : Config :=
  {| ServerAddress := ServerAddress c;
     APIURL := APIURL c;
     APIKey := APIKey c;
     SystemPrompt := SystemPrompt c;
     AuthToken := AuthToken c;
     DefaultModel := DefaultModel c;
     OllamaParams := m;
     ResponseFields := ResponseFields c;
     RequestTimeout := RequestTimeout c;
     StripNewline := StripNewline c |}.

Definition set_config (st : State) (c : Config) : State :=
  {| config := c; sent := sent st; written := written st |}.

Definition set_written (st : State) (w : option Written) : State :=
  {| config := config st; sent := sent st; written := w |}.

Definition M (A : Type) : Type := State -> Flow A * State.

Definition ret {A} (a : A) : M A := fun st => (Next a, st).

Definition bind {A B} (m : M A) (k : A -> M B) : M B :=
  fun st =>
    match m st with
    | (Next a, st') => k a st'
    | (Return, st') => (Return, st')
    | (Panic, st') => (Panic, st')
    end.

Notation "x <- m ;; k" := (bind m (fun x => k))
  (at level 100, m at next level, right associativity).
Notation "m ;; k" := (bind m (fun _ => k))
  (at level 100, right associativity).

Definition return_ {A} : M A := fun st => (Return, st).
Definition panic {A} : M A := fun st => (Panic, st).

Definition get_config : M Config := fun st => (Next (config st), st).

(** [v, err := f(...); if err != nil { onerr; return }] *)
Definition or_else {A} (v : option A) (onerr : M unit) : M A :=
  match v with
  | Some a => ret a
  | None => onerr ;; return_
  end.

(** A failing run-time check panics. *)
Definition checked {A} (v : option A) : M A :=
  match v with
  | Some a => ret a
  | None => panic
  end.

(** [log.Printf] and [log.Println]: the arguments are evaluated by the
    caller; the line written to the log is not part of the state. *)
Definition log_ (line : string) : M unit := ret tt.

(** [http.Error(w, msg, code)] *)
Definition http_Error (msg : string) (code : Z) : M unit :=
  fun st =>
    (Next tt,
     set_written st
       (Some {| StatusCode := code; ContentType := "text/plain; charset=utf-8";
                Payload := msg +:+ LF |})).

(** [w.Header().Set("Content-Type", ct)] then [w.Write(body)] *)
Definition w_Write (ct body : string) : M unit :=
  fun st =>
    (Next tt,
     set_written st
       (Some {| StatusCode := StatusOK; ContentType := ct; Payload := body |})).

(** [m[key] = value] through any name of the map [config.OllamaParams];
    an assignment to an entry of a nil map panics. *)
Definition mapassign_OllamaParams (key : string) (value : Value) : M unit :=
  fun st =>
    match OllamaParams (config st) with
    | None => (Panic, st)
    | Some m =>
        (Next tt,
         set_config st (with_OllamaParams (config st) (Some (<[key := value]> m))))
    end.

(** Reading the map through one of its names. *)
Definition read_OllamaParams : M (option (gmap string Value)) :=
  fun st => (Next (OllamaParams (config st)), st).

Definition wrap_int64 (n : Z) : Z :=
  (n + 2 ^ 63) mod 2 ^ 64 - 2 ^ 63.

(** [time.Duration(seconds) * time.Second], in nanoseconds *)
Definition seconds (n : Z) : Z := wrap_int64 (n * 1000000000).

(** [client.Do(req)] and the read of the response body. The request is
    recorded as sent whether or not the call succeeds. *)
Definition do_request `{Library} (req : Request) : M (option (option string)) :=
  fun st =>
    (Next (client_Do (length (sent st)) req),
     {| config := config st; sent := (sent st ++ [req])%list;
        written := written st |}).

Definition HandlerFunc : Type := Request -> M unit.

(** ** [authenticate] (main.go:129)

    The [*Config] argument of the Go function is the shared object in the
    state. On a mismatch the arguments of [log.Printf] are evaluated
    first, among them [token[len(token)-1:]]. *)
Definition authenticate (next : HandlerFunc) : HandlerFunc :=
  fun r =>
    config <- get_config ;;
    let token := Header_Get (Header r) "Authorization" in
    if bool_decide (token ≠ "Bearer " +:+ AuthToken config) then
      ending <- checked (slice_from token (Z.of_nat (String.length token) - 1)) ;;
      log_ ("Unauthorized access attempt from token ending in: '" +:+ ending
            +:+ "', from: " +:+ RemoteAddr r) ;;
      http_Error "Unauthorized" StatusUnauthorized ;;
      return_
    else
      log_ ("Successful authentication from: " +:+ RemoteAddr r) ;;
      next r.

(** ** The request handler (main.go:150) *)

(** main.go:180-183: the model of the request if it is a non-empty
    string, the configured default otherwise. *)
Definition model (config : Config) (haRequest : gmap string Value) : string :=
  match assert_string (haRequest !! "model") with
  | Some modelFromRequest =>
      if bool_decide (modelFromRequest ≠ EmptyString) then modelFromRequest
      else DefaultModel config
  | None => DefaultModel config
  end.

(** main.go:245-249: the loop over [config.ResponseFields]. *)
Definition copy_field (ollamaResponseMap filteredResponse : gmap string Value)
    (field : string) : gmap string Value :=
  match ollamaResponseMap !! field with
  | Some value => <[field := value]> filteredResponse
  | None => filteredResponse
  end.

(** main.go:232-249: the map literal and the loop. *)
Definition copied_fields (config : Config) (ollamaResponse : OllamaResponse)
    (ollamaResponseMap : gmap string Value) : gmap string Value :=
  foldl (copy_field ollamaResponseMap)
    {[ "response" := VString (Response ollamaResponse) ]}
    (ResponseFields config).

(** main.go:232-254: the map that is marshalled for the client, the
    newline replacement coming after the loop. *)
Definition filteredResponse (config : Config) (ollamaResponse : OllamaResponse)
    (ollamaResponseMap : gmap string Value) : gmap string Value :=
  let filteredResponse := copied_fields config ollamaResponse ollamaResponseMap in
  if StripNewline config then
    <["response" := VString (ReplaceAll (Response ollamaResponse) LF " ")]>
      filteredResponse
  else filteredResponse.

(** main.go:197-206: the outbound request. *)
Definition ollama_request (config : Config) (requestBody : string) : Request :=
  {| Method := "POST";
     URL := APIURL config;
     Header :=
       Header_Add
         (Header_Add ∅ "Authorization" ("Bearer " +:+ APIKey config))
         "Content-Type" "application/json";
     Body := requestBody;
     RemoteAddr := EmptyString;
     Deadline := Some (seconds (RequestTimeout config)) |}.

(** main.go:166-177: the prompt is the rendered template when the
    registry has one under the handler's name, the query itself otherwise. *)
Definition fullPrompt (templateConfig : TemplateConfig) (templateName query : string)
    : result string :=
  match Templates templateConfig !! templateName with
  | Some tmpl => processTemplate tmpl {| Query := query |}
  | None => Ok query
  end.

(** main.go:190-264: marshal the payload, call the backend, project its
    answer and write it. [config] is the pointer the closure captured;
    the payload is read through its local name [ollamaRequest]. *)
Definition exchange `{Library} (config : Config) : M unit :=
  ollamaRequest <- read_OllamaParams ;;
  requestBody <- or_else (json_Marshal ollamaRequest)
                   (log_ "Error marshaling Ollama request") ;;
  _ <- or_else (if http_NewRequest_ok "POST" (APIURL config)
                then Some tt else None)
         (log_ "Error creating request to Ollama API") ;;
  resp <- do_request (ollama_request config requestBody) ;;
  read <- or_else resp (log_ "Failed to send request to Ollama API") ;;
  body <- or_else read (log_ "Failed to read response body") ;;
  ollamaResponse <- or_else (json_Unmarshal_OllamaResponse body)
                      (log_ "Error unmarshaling response from Ollama API") ;;
  ollamaResponseMap <- or_else (json_Unmarshal_map body)
                         (log_ "Error unmarshaling response from Ollama API") ;;
  config <- get_config ;;
  responseBody <-
    or_else
      (json_Marshal (Some (filteredResponse config ollamaResponse ollamaResponseMap)))
      (log_ "Error marshaling filtered response") ;;
  w_Write "application/json" responseBody.

(** The closure that [templateHandler] passes to [authenticate]
    (main.go:151-265). *)
Definition handle `{Library} (templateConfig : TemplateConfig)
    (templateName : string) : HandlerFunc :=
  fun r =>
    haRequest <- or_else (json_Decode (Body r))
                   (http_Error "Invalid request" StatusBadRequest) ;;
    query <- or_else (assert_string (haRequest !! "query"))
               (http_Error "Query parameter missing or not a string"
                  StatusBadRequest) ;;
    fullPrompt <-
      match fullPrompt templateConfig templateName query with
      | Ok prompt => ret prompt
      | Err _ =>
          http_Error "Template processing failed" StatusInternalServerError ;;
          return_
      end ;;
    config <- get_config ;;
    let model := model config haRequest in
    (* ollamaRequest := config.OllamaParams: a second name for the map *)
    mapassign_OllamaParams "prompt" (VString fullPrompt) ;;
    mapassign_OllamaParams "model" (VString model) ;;
    exchange config.

Definition templateHandler `{Library} (templateConfig : TemplateConfig)
    (templateName : string) : HandlerFunc :=
  authenticate (handle templateConfig templateName).

(** What the server does with a handler: a response that was written is
    sent; a handler that returns without writing gives an empty 200; a
    panic is recovered by the server, which drops the connection. *)
Inductive Served : Type :=
  | Responded (w : Written)
  | ConnectionAborted.

Definition ServeHTTP (h : HandlerFunc) (r : Request) (st : State) : Served * State :=
  match h r (set_written st None) with
  | (Panic, st') => (ConnectionAborted, st')
  | (_, st') =>
      (Responded
         (default {| StatusCode := StatusOK; ContentType := EmptyString;
                     Payload := EmptyString |} (written st')),
       st')
  end.

(** ** [loadAndCacheTemplates] (main.go:76) *)

(** The template directory as the function sees it. [dirs] gives the
    entries of each existing directory; the content of an entry is [None]
    when [os.ReadFile] fails on it. The flags say which of the other
    calls fail. *)
Record FileSystem : Type := {
  dirs : gmap string (list (string * option string));
  MkdirAll_fails : bool;
  ReadDir_fails : bool;
  WriteFile_fails : bool
}.

Definition defaultTemplateContent : string :=
  "{{.Query}} Default template response.".

(** The body of the loop over the directory entries (main.go:91-109).
    The slice [templateName[:len(templateName)-len(".json")]] is in range
    whenever the extension is [".json"] (lemma [Ext_json_length]). *)
Definition load_file `{Library} (templates : gmap string Template)
    (file : string * option string) : gmap string Template :=
  let templateName := file.1 in
  if bool_decide (filepath_Ext templateName = ".json") then
    match file.2 with
    | None => templates
    | Some templateString =>
        match template_Parse templateName templateString with
        | None => templates
        | Some tmpl =>
            <[String.substring 0 (String.length templateName - String.length ".json")
                templateName := tmpl]> templates
        end
    end
  else templates.

Definition write_file (entries : list (string * option string))
    (name content : string) : list (string * option string) :=
  (filter (fun e => e.1 ≠ name) entries ++ [(name, Some content)])%list.

(** main.go:79-84, the local [mkdir] below: the error of [os.MkdirAll],
    if any, and the disk after it. [os.Stat] finds the directory or
    not. For a missing one [os.MkdirAll] runs: the other directories are
    then as the call leaves them ([os_MkdirAll]), and the directory
    itself is new and empty when the call succeeds, still missing when
    it fails. *)
Definition loadAndCacheTemplates `{Library} (templatesDir : string)
    (fs : FileSystem) : result TemplateConfig * FileSystem :=
  let mkdir :=
    match dirs fs !! templatesDir with
    | None =>
        let others := os_MkdirAll templatesDir (MkdirAll_fails fs) (dirs fs) in
        if MkdirAll_fails fs then
          (Some "mkdir",
           {| dirs := delete templatesDir others;
              MkdirAll_fails := MkdirAll_fails fs;
              ReadDir_fails := ReadDir_fails fs;
              WriteFile_fails := WriteFile_fails fs |})
        else
          (None,
           {| dirs := <[templatesDir := []]> others;
              MkdirAll_fails := MkdirAll_fails fs;
              ReadDir_fails := ReadDir_fails fs;
              WriteFile_fails := WriteFile_fails fs |})
    | Some _ => (None, fs)
    end in
  match mkdir with
  | (Some e, fs) => (Err e, fs)
  | (None, fs) =>
      match (if ReadDir_fails fs then None else dirs fs !! templatesDir) with
      | None => (Err "readdir", fs)
      | Some files =>
          let templates := foldl load_file ∅ files in
          if bool_decide (size templates = 0%nat) then
            match template_Parse "default" defaultTemplateContent with
            | None => (Err "parse", fs)
            | Some tmpl =>
                let templates := <["default" := tmpl]> templates in
                let fs :=
                  if WriteFile_fails fs then fs
                  else {| dirs := <[templatesDir :=
                                     write_file files "default.json"
                                       defaultTemplateContent]> (dirs fs);
                          MkdirAll_fails := MkdirAll_fails fs;
                          ReadDir_fails := ReadDir_fails fs;
                          WriteFile_fails := WriteFile_fails fs |} in
                (Ok {| Templates := templates; Params := None; Fields := None;
                       RequestTimeouts := None |}, fs)
            end
          else
            (Ok {| Templates := templates; Params := None; Fields := None;
                   RequestTimeouts := None |}, fs)
      end
  end.

(** ** [loadConfig] (main.go:55) and [main] (main.go:268) *)








(** ** Notions used to state the properties *)

Definition unauthorized : Written :=
  {| StatusCode := 401; ContentType := "text/plain; charset=utf-8";
     Payload := "Unauthorized" +:+ LF |}.

Definition bad_request (msg : string) : Written :=
  {| StatusCode := 400; ContentType := "text/plain; charset=utf-8";
     Payload := msg +:+ LF |}.

(** The state after main.go:186-188: the map of the configuration holds
    the prompt and the model of this request. *)
Definition payload_of (params : gmap string Value) (prompt model : string)
    : gmap string Value :=
  <["model" := VString model]> (<["prompt" := VString prompt]> params).




(** What the replacement does to one byte. *)
Definition space_for_newline (c : ascii) : ascii :=
  if bool_decide (c = "010"%char) then " "%char else c.

(** The response of the server for a handler that returned without
    writing. *)
Definition empty_ok : Written :=
  {| StatusCode := StatusOK; ContentType := EmptyString; Payload := EmptyString |}.

Definition internal_error (msg : string) : Written :=
  {| StatusCode := 500; ContentType := "text/plain; charset=utf-8";
     Payload := msg +:+ LF |}.

(** ** [encoding/json]: the scanner and the stream decoder

    [json.Valid] and [Decoder.Decode] run the same scanner
    (scanner.go) over the bytes of the input, and differ in where they
    stop: [Valid] wants the whole input to be one JSON value, [Decode]
    stops at the end of the first value and leaves the rest unread. *)
Module Json.

(** The codes a step returns. *)
Inductive ScanCode : Type :=
  | scanContinue
  | scanBeginLiteral
  | scanBeginObject
  | scanObjectKey
  | scanObjectValue
  | scanEndObject
  | scanBeginArray
  | scanArrayValue
  | scanEndArray
  | scanSkipSpace
  | scanEnd
  | scanError.

Inductive ParseState : Type :=
  | parseObjectKey
  | parseObjectValue
  | parseArrayValue.

(** The values of the field [step]: [StepBeginValue] is the function
    [stateBeginValue], and so on. *)
Inductive StepFunc : Type :=
  | StepBeginValueOrEmpty
  | StepBeginValue
  | StepBeginStringOrEmpty
  | StepBeginString
  | StepEndValue
  | StepEndTop
  | StepInString
  | StepInStringEsc
  | StepInStringEscU
  | StepInStringEscU1
  | StepInStringEscU12
  | StepInStringEscU123
  | StepNeg
  | Step1
  | Step0
  | StepDot
  | StepDot0
  | StepE
  | StepESign
  | StepE0
  | StepT
  | StepTr
  | StepTru
  | StepF
  | StepFa
  | StepFal
  | StepFals
  | StepN
  | StepNu
  | StepNul
  | StepError.

(** [parseState] is the stack of the open objects and arrays, the
    innermost first. [err] holds the context of the syntax error; the
    byte count of the Go struct, used for the offset in the message, is
    left out. *)
Record scanner : Type := {
  step : StepFunc;
  endTop : bool;
  parseState : list ParseState;
  err : option string
}.

Definition maxNestingDepth : N := 10000%N.

Definition reset : scanner :=
  {| step := StepBeginValue; endTop := false; parseState := []; err := None |}.

Definition set_step (s : scanner) (f : StepFunc) : scanner :=
  {| step := f; endTop := endTop s; parseState := parseState s; err := err s |}.

Definition set_parseState (s : scanner) (stack : list ParseState) : scanner :=
  {| step := step s; endTop := endTop s; parseState := stack; err := err s |}.

(** [s.error(c, context)] *)
Definition error (s : scanner) (c : ascii) (context : string) : ScanCode * scanner :=
  (scanError,
   {| step := StepError; endTop := endTop s; parseState := parseState s;
      err := Some context |}).

Definition pushParseState (s : scanner) (c : ascii) (newParseState : ParseState)
    (successState : ScanCode) : ScanCode * scanner :=
  let s := set_parseState s (newParseState :: parseState s) in
  if (N.of_nat (length (parseState s)) <=? maxNestingDepth)%N
  then (successState, s)
  else error s c "exceeded max depth".

(** Called with a stack that is not empty only. *)
Definition popParseState (s : scanner) : scanner :=
  match parseState s with
  | [] | [_] =>
      {| step := StepEndTop; endTop := true; parseState := []; err := err s |}
  | _ :: rest =>
      {| step := StepEndValue; endTop := endTop s; parseState := rest;
         err := err s |}
  end.

(** [s.parseState[n-1] = ps], on a stack that is not empty *)
Definition set_top (s : scanner) (ps : ParseState) : scanner :=
  set_parseState s
    (match parseState s with
     | [] => []
     | _ :: rest => ps :: rest
     end).

Definition byte_is (c : ascii) (b : string) : bool :=
  bool_decide (String c EmptyString = b).

Definition between (lo hi : N) (c : ascii) : bool :=
  ((lo <=? N_of_ascii c) && (N_of_ascii c <=? hi))%N.

Definition isDigit : ascii -> bool := between 48%N 57%N.

Definition isHex (c : ascii) : bool :=
  between 48%N 57%N c || between 97%N 102%N c || between 65%N 70%N c.

Definition isSpace (c : ascii) : bool :=
  bool_decide (c = " "%char) || bool_decide (c = "009"%char)
  || bool_decide (c = "013"%char) || bool_decide (c = "010"%char).

Definition stateEndTop (s : scanner) (c : ascii) : ScanCode * scanner :=
  if isSpace c then (scanEnd, s)
  else (scanEnd, (error s c "after top-level value").2).

Definition stateEndValue (s : scanner) (c : ascii) : ScanCode * scanner :=
  match parseState s with
  | [] =>
      stateEndTop
        {| step := StepEndTop; endTop := true; parseState := []; err := err s |} c
  | ps :: _ =>
      if isSpace c then (scanSkipSpace, set_step s StepEndValue)
      else
        match ps with
        | parseObjectKey =>
            if byte_is c ":" then
              (scanObjectKey, set_step (set_top s parseObjectValue) StepBeginValue)
            else error s c "after object key"
        | parseObjectValue =>
            if byte_is c "," then
              (scanObjectValue, set_step (set_top s parseObjectKey) StepBeginString)
            else if byte_is c "}" then (scanEndObject, popParseState s)
            else error s c "after object key:value pair"
        | parseArrayValue =>
            if byte_is c "," then (scanArrayValue, set_step s StepBeginValue)
            else if byte_is c "]" then (scanEndArray, popParseState s)
            else error s c "after array element"
        end
  end.

Definition stateBeginValue (s : scanner) (c : ascii) : ScanCode * scanner :=
  if isSpace c then (scanSkipSpace, s)
  else if byte_is c "{" then
    pushParseState (set_step s StepBeginStringOrEmpty) c parseObjectKey
      scanBeginObject
  else if byte_is c "[" then
    pushParseState (set_step s StepBeginValueOrEmpty) c parseArrayValue
      scanBeginArray
  else if bool_decide (c = "034"%char) then (scanBeginLiteral, set_step s StepInString)
  else if byte_is c "-" then (scanBeginLiteral, set_step s StepNeg)
  else if byte_is c "0" then (scanBeginLiteral, set_step s Step0)
  else if byte_is c "t" then (scanBeginLiteral, set_step s StepT)
  else if byte_is c "f" then (scanBeginLiteral, set_step s StepF)
  else if byte_is c "n" then (scanBeginLiteral, set_step s StepN)
  else if between 49%N 57%N c then (scanBeginLiteral, set_step s Step1)
  else error s c "looking for beginning of value".

Definition stateBeginValueOrEmpty (s : scanner) (c : ascii) : ScanCode * scanner :=
  if isSpace c then (scanSkipSpace, s)
  else if byte_is c "]" then stateEndValue s c
  else stateBeginValue s c.

Definition stateBeginString (s : scanner) (c : ascii) : ScanCode * scanner :=
  if isSpace c then (scanSkipSpace, s)
  else if bool_decide (c = "034"%char) then (scanBeginLiteral, set_step s StepInString)
  else error s c "looking for beginning of object key string".

Definition stateBeginStringOrEmpty (s : scanner) (c : ascii) : ScanCode * scanner :=
  if isSpace c then (scanSkipSpace, s)
  else if byte_is c "}" then stateEndValue (set_top s parseObjectValue) c
  else stateBeginString s c.

Definition stateInString (s : scanner) (c : ascii) : ScanCode * scanner :=
  if bool_decide (c = "034"%char) then (scanContinue, set_step s StepEndValue)
  else if bool_decide (c = "092"%char) then (scanContinue, set_step s StepInStringEsc)
  else if (N_of_ascii c <? 32)%N then error s c "in string literal"
  else (scanContinue, s).

Definition stateInStringEsc (s : scanner) (c : ascii) : ScanCode * scanner :=
  if byte_is c "b" || byte_is c "f" || byte_is c "n" || byte_is c "r" || byte_is c "t"
     || bool_decide (c = "092"%char) || byte_is c "/" || bool_decide (c = "034"%char)
  then (scanContinue, set_step s StepInString)
  else if byte_is c "u" then (scanContinue, set_step s StepInStringEscU)
  else error s c "in string escape code".

(** [stateInStringEscU], [...U1], [...U12] and [...U123]: one
    hexadecimal digit each, [next] being the state after it. *)
Definition stateInStringEscHex (next : StepFunc) (s : scanner) (c : ascii)
    : ScanCode * scanner :=
  if isHex c then (scanContinue, set_step s next)
  else error s c "in \u hexadecimal character escape".

Definition stateNeg (s : scanner) (c : ascii) : ScanCode * scanner :=
  if byte_is c "0" then (scanContinue, set_step s Step0)
  else if between 49%N 57%N c then (scanContinue, set_step s Step1)
  else error s c "in numeric literal".

Definition state0 (s : scanner) (c : ascii) : ScanCode * scanner :=
  if byte_is c "." then (scanContinue, set_step s StepDot)
  else if byte_is c "e" || byte_is c "E" then (scanContinue, set_step s StepE)
  else stateEndValue s c.

Definition state1 (s : scanner) (c : ascii) : ScanCode * scanner :=
  if isDigit c then (scanContinue, set_step s Step1)
  else state0 s c.

Definition stateDot (s : scanner) (c : ascii) : ScanCode * scanner :=
  if isDigit c then (scanContinue, set_step s StepDot0)
  else error s c "after decimal point in numeric literal".

Definition stateDot0 (s : scanner) (c : ascii) : ScanCode * scanner :=
  if isDigit c then (scanContinue, s)
  else if byte_is c "e" || byte_is c "E" then (scanContinue, set_step s StepE)
  else stateEndValue s c.

Definition stateESign (s : scanner) (c : ascii) : ScanCode * scanner :=
  if isDigit c then (scanContinue, set_step s StepE0)
  else error s c "in exponent of numeric literal".

Definition stateE (s : scanner) (c : ascii) : ScanCode * scanner :=
  if byte_is c "+" || byte_is c "-" then (scanContinue, set_step s StepESign)
  else stateESign s c.

Definition stateE0 (s : scanner) (c : ascii) : ScanCode * scanner :=
  if isDigit c then (scanContinue, s)
  else stateEndValue s c.

(** The states inside [true], [false] and [null]: the byte [want] leads
    to [next]. *)
Definition stateLiteral (want : string) (next : StepFunc) (context : string)
    (s : scanner) (c : ascii) : ScanCode * scanner :=
  if byte_is c want then (scanContinue, set_step s next)
  else error s c context.

Definition stateError (s : scanner) (c : ascii) : ScanCode * scanner :=
  (scanError, s).

(** [s.step(s, c)] *)
Definition call_step (s : scanner) (c : ascii) : ScanCode * scanner :=
  match step s with
  | StepBeginValueOrEmpty => stateBeginValueOrEmpty s c
  | StepBeginValue => stateBeginValue s c
  | StepBeginStringOrEmpty => stateBeginStringOrEmpty s c
  | StepBeginString => stateBeginString s c
  | StepEndValue => stateEndValue s c
  | StepEndTop => stateEndTop s c
  | StepInString => stateInString s c
  | StepInStringEsc => stateInStringEsc s c
  | StepInStringEscU => stateInStringEscHex StepInStringEscU1 s c
  | StepInStringEscU1 => stateInStringEscHex StepInStringEscU12 s c
  | StepInStringEscU12 => stateInStringEscHex StepInStringEscU123 s c
  | StepInStringEscU123 => stateInStringEscHex StepInString s c
  | StepNeg => stateNeg s c
  | Step1 => state1 s c
  | Step0 => state0 s c
  | StepDot => stateDot s c
  | StepDot0 => stateDot0 s c
  | StepE => stateE s c
  | StepESign => stateESign s c
  | StepE0 => stateE0 s c
  | StepT => stateLiteral "r" StepTr "in literal true (expecting 'r')" s c
  | StepTr => stateLiteral "u" StepTru "in literal true (expecting 'u')" s c
  | StepTru => stateLiteral "e" StepEndValue "in literal true (expecting 'e')" s c
  | StepF => stateLiteral "a" StepFa "in literal false (expecting 'a')" s c
  | StepFa => stateLiteral "l" StepFal "in literal false (expecting 'l')" s c
  | StepFal => stateLiteral "s" StepFals "in literal false (expecting 's')" s c
  | StepFals => stateLiteral "e" StepEndValue "in literal false (expecting 'e')" s c
  | StepN => stateLiteral "u" StepNu "in literal null (expecting 'u')" s c
  | StepNu => stateLiteral "l" StepNul "in literal null (expecting 'l')" s c
  | StepNul => stateLiteral "l" StepEndValue "in literal null (expecting 'l')" s c
  | StepError => stateError s c
  end.

Definition is_scanEnd (code : ScanCode) : bool :=
  match code with scanEnd => true | _ => false end.

(** [s.eof()] *)
Definition eof (s : scanner) : ScanCode :=
  match err s with
  | Some _ => scanError
  | None =>
      if endTop s then scanEnd
      else if endTop (call_step s " ").2 then scanEnd
      else scanError
  end.

(** The loop of [checkValid] over the bytes; [None] is the return at
    the first [scanError]. *)
Fixpoint scan_all (scan : scanner) (data : string) : option scanner :=
  match data with
  | EmptyString => Some scan
  | String c data' =>
      match call_step scan c with
      | (scanError, _) => None
      | (_, scan') => scan_all scan' data'
      end
  end.

(** [json.Valid(data)], that is [checkValid(data, scan) == nil] *)
Definition Valid (data : string) : bool :=
  match scan_all reset data with
  | None => false
  | Some scan =>
      match eof scan with
      | scanError => false
      | _ => true
      end
  end.

(** The scan of [Decoder.readValue] (stream.go) over a body that is
    read to its end: the length of the first JSON value, or [None] for
    an error. After the [}] or [[]] that closes the value the scanner is
    fed a space instead of the next byte; at the end of the input too. *)
Fixpoint readValue_scan (scan : scanner) (buf : string) (scanp : nat) : option nat :=
  match buf with
  | EmptyString =>
      if is_scanEnd (call_step scan " ").1 then Some scanp else None
  | String c buf' =>
      match call_step scan c with
      | (scanEnd, _) => Some scanp
      | (scanEndObject, scan') | (scanEndArray, scan') =>
          match stateEndValue scan' " " with
          | (scanEnd, _) => Some (S scanp)
          | (_, scan'') => readValue_scan scan'' buf' (S scanp)
          end
      | (scanError, _) => None
      | (_, scan') => readValue_scan scan' buf' (S scanp)
      end
  end.

Definition readValue (body : string) : option nat :=
  readValue_scan reset body 0%nat.

(** [json.NewDecoder(body).Decode(&v)], the first call: the bytes of the
    first value are cut out of the body and unmarshalled into [v]; what
    follows them stays in the buffer of the decoder. *)
Definition Decoder_Decode {A : Type} (unmarshal : string -> option A)
    (body : string) : option A :=
  match readValue body with
  | None => None
  | Some n => unmarshal (String.substring 0 n body)
  end.

End Json.

(** Whether the last byte of [s] is a closing brace or bracket, as it is
    for the text of a JSON object or array without anything after it. *)
Fixpoint ends_with_bracket (s : string) : bool :=
  match s with
  | EmptyString => false
  | String c EmptyString => Json.byte_is c "}" || Json.byte_is c "]"
  | String _ rest => ends_with_bracket rest
  end.

(** ** A library given by tables

    Used to run the handlers on examples: request bodies and backend
    bodies are looked up in tables, the parser is the fragment of
    [HtmlTemplate], and every payload marshals. The examples list the
    template directory only, none of its ancestors, so that creating it
    changes no listing that is there. *)
Definition table_library
    (requests : gmap string (gmap string Value))
    (responses : gmap string (OllamaResponse * gmap string Value))
    (backend : Request -> option (option string)) : Library :=
  {| json_Decode := fun body => requests !! body;
     json_Marshal := fun m =>
       Some (match m with Some _ => "{...}" | None => "null" end);
     json_Unmarshal_OllamaResponse := fun body => fst <$> responses !! body;
     json_Unmarshal_map := fun body => snd <$> responses !! body;
     http_NewRequest_ok := fun _ url => negb (bool_decide (url = EmptyString));
     client_Do := fun _ req => backend req;
     template_Parse := Parse;
     os_MkdirAll := fun _ _ listings => listings |}.

Definition example_config : Config :=
  {| ServerAddress := ":8080";
     APIURL := "http://localhost:11434/api/generate";
     APIKey := "key";
     SystemPrompt := EmptyString;
     AuthToken := "secret";
     DefaultModel := "llama2";
     OllamaParams := Some {[ "stream" := VBool false ]};
     ResponseFields := ["eval_count"];
     RequestTimeout := 30;
     StripNewline := true |}.

Definition example_state : State :=
  {| config := example_config; sent := []; written := None |}.

(** A [POST] with the given [Authorization] header values and body. *)
Definition post (authorization : list string) (body : string) : Request :=
  {| Method := "POST";
     URL := "/template/default";
     Header := match authorization with
               | [] => ∅
               | _ => {[ "Authorization" := authorization ]}
               end;
     Body := body;
     RemoteAddr := "10.0.0.7:5555";
     Deadline := None |}.

Definition example_registry : TemplateConfig :=
  {| Templates :=
       match Parse "default.json" defaultTemplateContent with
       | Some tmpl => {[ "default" := tmpl ]}
       | None => ∅
       end;
     Params := None; Fields := None; RequestTimeouts := None |}.

(** [s] between double quotes. *)
Definition quoted (s : string) : string :=
  String "034" (s +:+ String "034" EmptyString).

Definition joke : string := "tell me a joke".

(** The JSON texts [{"query":"tell me a joke"}], the same with
    ["model":"mistral"], the same with ["temperature":2] and
    [{"query":5}]. *)
Definition body_query : string :=
  "{" +:+ quoted "query" +:+ ":" +:+ quoted joke +:+ "}".
Definition body_model : string :=
  "{" +:+ quoted "query" +:+ ":" +:+ quoted joke +:+ ","
  +:+ quoted "model" +:+ ":" +:+ quoted "mistral" +:+ "}".
Definition body_extra : string :=
  "{" +:+ quoted "query" +:+ ":" +:+ quoted joke +:+ ","
  +:+ quoted "temperature" +:+ ":2}".
Definition body_number : string :=
  "{" +:+ quoted "query" +:+ ":5}".

Definition float_of_Z (n : Z) : spec_float :=
  match n with
  | Z0 => S754_zero false
  | Zpos p => S754_finite false p 0
  | Zneg p => S754_finite true p 0
  end.

Definition example_requests : gmap string (gmap string Value) :=
  {[ body_query := {[ "query" := VString joke ]};
     body_model := {[ "query" := VString joke; "model" := VString "mistral" ]};
     body_extra := {[ "query" := VString joke; "temperature" := VFloat64 (float_of_Z 2) ]};
     body_number := {[ "query" := VFloat64 (float_of_Z 5) ]} ]}.

(** The backend answer [{"response":"hi\nthere","done":true,"eval_count":5}]
    and its two decodings. *)
Definition backend_body : string :=
  "{" +:+ quoted "response" +:+ ":" +:+ quoted "hi\nthere" +:+ ","
  +:+ quoted "done" +:+ ":true," +:+ quoted "eval_count" +:+ ":5}".

Definition backend_response : OllamaResponse :=
  {| Model := EmptyString; CreatedAt := EmptyString;
     Response := "hi" +:+ LF +:+ "there";
     Done := true; Context := [];
     TotalDuration := 0; LoadDuration := 0; PromptEvalCount := 0;
     PromptEvalDuration := 0; EvalCount := 5; EvalDuration := 0 |}.

Definition backend_map : gmap string Value :=
  {[ "response" := VString ("hi" +:+ LF +:+ "there");
     "done" := VBool true;
     "eval_count" := VFloat64 (float_of_Z 5) ]}.

Definition example_library : Library :=
  table_library example_requests
    {[ backend_body := (backend_response, backend_map) ]}
    (fun _ => Some (Some backend_body)).

(** The library of the examples with the stream decoder in front of
    the table of request bodies: [Json.readValue] cuts the first JSON
    value out of the body, and the table gives its decoding. *)
Definition stream_library : Library :=
  {| json_Decode :=
       Json.Decoder_Decode (fun value => example_requests !! value);
     json_Marshal := json_Marshal (Library := example_library);
     json_Unmarshal_OllamaResponse :=
       json_Unmarshal_OllamaResponse (Library := example_library);
     json_Unmarshal_map := json_Unmarshal_map (Library := example_library);
     http_NewRequest_ok := http_NewRequest_ok (Library := example_library);
     client_Do := client_Do (Library := example_library);
     template_Parse := template_Parse (Library := example_library);
     os_MkdirAll := os_MkdirAll (Library := example_library) |}.

(** [{"query":"tell me a joke"} trailing garbage] *)
Definition body_trailing : string := body_query +:+ " trailing garbage".

Definition example_config_response : Config :=
  {| ServerAddress := ":8080";
     APIURL := "http://localhost:11434/api/generate";
     APIKey := "key";
     SystemPrompt := EmptyString;
     AuthToken := "secret";
     DefaultModel := "llama2";
     OllamaParams := Some ∅;
     ResponseFields := ["response"; "eval_count"];
     RequestTimeout := 30;
     StripNewline := true |}.

(** A template directory with a text file, a template that does not
    parse and an entry that cannot be read. *)
Definition example_fs : FileSystem :=
  {| dirs := {[ "./templates" :=
                  [("bad.json", Some "{{.Query");
                   ("locked.json", None);
                   ("notes.txt", Some "{{.Query}}")] ]};
     MkdirAll_fails := false;
     ReadDir_fails := false;
     WriteFile_fails := false |}.

Definition default_template : Template :=
  {| Name := "default";
     Execute := exec [FieldNode "Query"; TextNode " Default template response."] |}.

(** ** More example data *)

Definition example_state_nil : State :=
  set_config example_state (with_OllamaParams example_config None).

(** A template that names a field [TemplateData] does not have. *)
Definition broken_template : Template :=
  {| Name := "broken.json"; Execute := exec [FieldNode "Name"] |}.

Definition broken_registry : TemplateConfig :=
  {| Templates := {[ "broken" := broken_template ]};
     Params := None; Fields := None; RequestTimeouts := None |}.

(** The library of the examples with a backend that refuses every
    connection. *)
Definition offline_library : Library :=
  table_library example_requests ∅ (fun _ => None).

Definition lighting_template : Template :=
  {| Name := "lighting.json";
     Execute := exec [FieldNode "Query"; TextNode " lights"] |}.

Definition lighting_files : list (string * option string) :=
  [("bad.json", Some "{{.Query");
   ("lighting.json", Some "{{.Query}} lights");
   ("notes.txt", Some "{{.Query}}")].

Definition lighting_fs : FileSystem :=
  {| dirs := {[ "./templates" := lighting_files ]};
     MkdirAll_fails := false; ReadDir_fails := false; WriteFile_fails := false |}.

Definition lighting_registry : TemplateConfig :=
  {| Templates := {[ "lighting" := lighting_template ]};
     Params := None; Fields := None; RequestTimeouts := None |}.

(** A disk without the template directory. *)
Definition empty_fs : FileSystem :=
  {| dirs := ∅;
     MkdirAll_fails := false; ReadDir_fails := false; WriteFile_fails := false |}.



(** * Properties *)

(** ** Authentication *)

Lemma slice_from_last (s : string) :
  s ≠ EmptyString →
  is_Some (slice_from s (Z.of_nat (String.length s) - 1)).
Proof.
  intros Hs. unfold slice_from.
  destruct s as [|c s']; [done|]. cbn [String.length].
  destruct (_ || _) eqn:E; [|eauto].
  apply orb_true_iff in E as [E|E]; apply Z.ltb_lt in E; lia.
Qed.

Lemma slice_from_empty : slice_from EmptyString (Z.of_nat (String.length "") - 1) = None.
Proof. reflexivity. Qed.

Lemma authenticate_match (next : HandlerFunc) (r : Request) (st : State) :
  Header_Get (Header r) "Authorization" = "Bearer " +:+ AuthToken (config st) →
  authenticate next r st = next r st.
Proof.
  intros Hm. unfold authenticate, bind, get_config. cbn.
  rewrite bool_decide_eq_false_2; [done|]. intros Hne. by apply Hne.
Qed.

Lemma authenticate_mismatch (next : HandlerFunc) (r : Request) (st : State) :
  Header_Get (Header r) "Authorization" ≠ "Bearer " +:+ AuthToken (config st) →
  Header_Get (Header r) "Authorization" ≠ EmptyString →
  authenticate next r st = (Return, set_written st (Some unauthorized)).
Proof.
  intros Hne Hnonempty. unfold authenticate, bind, get_config. cbn.
  rewrite bool_decide_eq_true_2; [|done].
  destruct (slice_from_last _ Hnonempty) as [e He].
  cbn in He. rewrite He. reflexivity.
Qed.

Lemma authenticate_empty (next : HandlerFunc) (r : Request) (st : State) :
  Header_Get (Header r) "Authorization" = EmptyString →
  authenticate next r st = (Panic, st).
Proof.
  intros He. unfold authenticate, bind, get_config. cbn.
  rewrite He. rewrite bool_decide_eq_true_2; [done|].
  cbn. discriminate.
Qed.

(** C3 (the case the code misses): a request whose [Authorization]
    header is missing, or present and empty, never gets the 401. The
    header reads as the empty string, the comparison fails, and the slice
    [token[len(token)-1:]] in the log call panics before [http.Error]
    runs: the server drops the connection, nothing is written, and the
    wrapped handler is not run (the result is the same for every [next]). *)
Theorem authenticate_missing_header_panics :
  ∀ (next : HandlerFunc) (body : string) (st : State),
    ServeHTTP (authenticate next) (post [] body) st
    = (ConnectionAborted, set_written st None) ∧
    ServeHTTP (authenticate next) (post [EmptyString] body) st
    = (ConnectionAborted, set_written st None).
Proof.
  intros next body st. unfold ServeHTTP.
  split; (rewrite authenticate_empty; [done|]); reflexivity.
Qed.

(** The rest of C3 holds: a non-empty header that differs from
    ["Bearer " + token] is answered with 401 whatever the wrapped handler
    is, and on an exact match the wrapped handler runs. *)
Lemma authenticate_nonempty (next : HandlerFunc) (r : Request) (st : State) :
  Header_Get (Header r) "Authorization" ≠ EmptyString →
  (Header_Get (Header r) "Authorization" ≠ "Bearer " +:+ AuthToken (config st) →
   ServeHTTP (authenticate next) r st
   = (Responded unauthorized, set_written st (Some unauthorized))) ∧
  (Header_Get (Header r) "Authorization" = "Bearer " +:+ AuthToken (config st) →
   ServeHTTP (authenticate next) r st = ServeHTTP next r st).
Proof.
  intros Hnonempty. split; intros H; unfold ServeHTTP.
  - rewrite authenticate_mismatch; done.
  - rewrite authenticate_match; done.
Qed.

(** ** The handler, stage by stage *)

(** Run a handler as far as the hypotheses decide its branches: each
    known result of a library call or of a lookup is rewritten in, and
    the monad is reduced. *)
Ltac run_handler :=
  unfold handle, bind, mapassign_OllamaParams;
  repeat match goal with
         | Hcall : ?call = _ |- context [?call] => rewrite Hcall; cbn
         end.

Section Handler.
Context `{Library}.
Implicit Types (tc : TemplateConfig) (name : string) (r : Request) (st : State).

Lemma handle_invalid_json tc name r st :
  json_Decode (Body r) = None →
  handle tc name r st
  = (Return, set_written st (Some (bad_request "Invalid request"))).
Proof. intros Hd. run_handler. reflexivity. Qed.

Lemma handle_bad_query tc name r st haRequest :
  json_Decode (Body r) = Some haRequest →
  assert_string (haRequest !! "query") = None →
  handle tc name r st
  = (Return,
     set_written st
       (Some (bad_request "Query parameter missing or not a string"))).
Proof. intros Hd Hq. run_handler. reflexivity. Qed.

Lemma handle_builds tc name r st haRequest query prompt params :
  json_Decode (Body r) = Some haRequest →
  haRequest !! "query" = Some (VString query) →
  fullPrompt tc name query = Ok prompt →
  OllamaParams (config st) = Some params →
  handle tc name r st
  = exchange (config st)
      (set_config st
         (with_OllamaParams (config st)
            (Some (payload_of params prompt (model (config st) haRequest))))).
Proof.
  intros Hd Hq Hp Hparams. run_handler. reflexivity.
Qed.

Lemma handle_nil_map tc name r st haRequest query prompt :
  json_Decode (Body r) = Some haRequest →
  haRequest !! "query" = Some (VString query) →
  fullPrompt tc name query = Ok prompt →
  OllamaParams (config st) = None →
  handle tc name r st = (Panic, st).
Proof.
  intros Hd Hq Hp Hparams. run_handler. reflexivity.
Qed.

(** Whatever the backend does, the exchange leaves the configuration
    as it found it and sends at most one request, whose body is the
    marshalled payload. *)
Lemma exchange_effects (c : Config) st :
  ∃ flow st',
    exchange c st = (flow, st') ∧ config st' = config st ∧
    match json_Marshal (OllamaParams (config st)) with
    | Some requestBody =>
        if http_NewRequest_ok "POST" (APIURL c)
        then sent st' = (sent st ++ [ollama_request c requestBody])%list
        else sent st' = sent st
    | None => sent st' = sent st
    end.
Proof.
  unfold exchange, bind, read_OllamaParams. cbn.
  destruct (json_Marshal (OllamaParams (config st))) as [requestBody|]; cbn;
    [|by eauto].
  destruct (http_NewRequest_ok "POST" (APIURL c)); cbn; [|by eauto].
  destruct (client_Do _ _) as [[body|]|]; cbn; [|by eauto..].
  destruct (json_Unmarshal_OllamaResponse body); cbn; [|by eauto].
  destruct (json_Unmarshal_map body); cbn; [|by eauto].
  destruct (json_Marshal (Some _)); cbn; by eauto.
Qed.

End Handler.

(** The payload of a request does not depend on the requests handled
    before it: the two assignments overwrite what those left behind. *)
Lemma payload_of_overwrites (params : gmap string Value)
    (prompt1 model1 prompt2 model2 : string) :
  payload_of (payload_of params prompt1 model1) prompt2 model2
  = payload_of params prompt2 model2.
Proof.
  unfold payload_of. apply map_eq. intros k.
  rewrite !lookup_insert. repeat case_decide; done.
Qed.

Section Requests.
Context `{Library}.
Implicit Types (tc : TemplateConfig) (name : string) (r : Request) (st : State).

(** An authorized, well-formed request reaches main.go:186-188, and
    from there on the map of the shared configuration is the payload
    of this request. *)
Lemma templateHandler_payload tc name r st haRequest query prompt params :
  Header_Get (Header r) "Authorization" = "Bearer " +:+ AuthToken (config st) →
  json_Decode (Body r) = Some haRequest →
  haRequest !! "query" = Some (VString query) →
  fullPrompt tc name query = Ok prompt →
  OllamaParams (config st) = Some params →
  let payload := payload_of params prompt (model (config st) haRequest) in
  ∃ flow st',
    templateHandler tc name r st = (flow, st') ∧
    config st' = with_OllamaParams (config st) (Some payload) ∧
    match json_Marshal (Some payload) with
    | Some requestBody =>
        if http_NewRequest_ok "POST" (APIURL (config st))
        then sent st' = (sent st ++ [ollama_request (config st) requestBody])%list
        else sent st' = sent st
    | None => sent st' = sent st
    end.
Proof.
  intros Hauth Hd Hq Hp Hparams payload.
  unfold templateHandler. rewrite authenticate_match by done.
  rewrite (handle_builds _ _ _ _ _ _ _ _ Hd Hq Hp Hparams).
  destruct (exchange_effects (config st)
              (set_config st (with_OllamaParams (config st) (Some payload))))
    as (flow & st' & Hrun & Hc & Hs).
  exists flow, st'. split; [exact Hrun|]. split; [exact Hc|]. exact Hs.
Qed.

(** C4: model selection. For a request that gets as far as the payload
    (authorized, a JSON object with a string [query], a template that
    renders, a non-nil parameter map), the payload handed to
    [json.Marshal] and sent to the backend has under ["model"] the
    request's [model] when that is a non-empty string, and the
    configured default when the field is absent, empty or not a
    string. *)
Theorem model_selection tc name r st haRequest query prompt params :
  Header_Get (Header r) "Authorization" = "Bearer " +:+ AuthToken (config st) →
  json_Decode (Body r) = Some haRequest →
  haRequest !! "query" = Some (VString query) →
  fullPrompt tc name query = Ok prompt →
  OllamaParams (config st) = Some params →
  ∃ payload flow st',
    templateHandler tc name r st = (flow, st') ∧
    OllamaParams (config st') = Some payload ∧
    (∀ requestBody,
       json_Marshal (Some payload) = Some requestBody →
       http_NewRequest_ok "POST" (APIURL (config st)) = true →
       sent st' = (sent st ++ [ollama_request (config st) requestBody])%list) ∧
    (∀ m, haRequest !! "model" = Some (VString m) → m ≠ EmptyString →
          payload !! "model" = Some (VString m)) ∧
    (haRequest !! "model" = None ∨
     haRequest !! "model" = Some (VString EmptyString) ∨
     (∃ v, haRequest !! "model" = Some v ∧ ∀ m, v ≠ VString m) →
     payload !! "model" = Some (VString (DefaultModel (config st)))).
Proof.
  intros Hauth Hd Hq Hp Hparams.
  destruct (templateHandler_payload _ _ _ _ _ _ _ _ Hauth Hd Hq Hp Hparams)
    as (flow & st' & Hrun & Hc & Hs).
  eexists _, flow, st'. split; [exact Hrun|].
  split; [rewrite Hc; reflexivity|].
  split; [|split].
  - intros requestBody Hm Hok. rewrite Hm, Hok in Hs. exact Hs.
  - intros m Hm Hne. unfold payload_of. rewrite lookup_insert_eq.
    unfold model. rewrite Hm. cbn. by rewrite bool_decide_eq_true_2.
  - intros Hcase. unfold payload_of. rewrite lookup_insert_eq.
    unfold model. destruct Hcase as [Hm|[Hm|(v & Hm & Hv)]]; rewrite Hm; cbn.
    + reflexivity.
    + reflexivity.
    + destruct v; try reflexivity. by destruct (Hv s).
Qed.

(** C7, as the code has it: a body on which [Decode] returns an error,
    or a decoded object whose [query] is missing or not a string, leads
    to no backend call (and leaves the configuration alone); if the
    request is authorized the answer is HTTP 400. [Decode] looks at the
    first JSON value of the body only, so this does not cover every
    body that is not valid JSON. *)
Theorem invalid_request_rejected tc name r st :
  (json_Decode (Body r) = None ∨
   ∃ haRequest, json_Decode (Body r) = Some haRequest ∧
     (haRequest !! "query" = None ∨
      ∃ v, haRequest !! "query" = Some v ∧ ∀ q, v ≠ VString q)) →
  ∃ out st',
    ServeHTTP (templateHandler tc name) r st = (out, st') ∧
    sent st' = sent st ∧
    config st' = config st ∧
    (Header_Get (Header r) "Authorization" = "Bearer " +:+ AuthToken (config st) →
     ∃ w, out = Responded w ∧ StatusCode w = StatusBadRequest).
Proof.
  intros Hbad. unfold ServeHTTP, templateHandler.
  destruct (decide (Header_Get (Header r) "Authorization"
                    = "Bearer " +:+ AuthToken (config st))) as [Hauth|Hauth].
  - rewrite authenticate_match by done.
    destruct Hbad as [Hd|(haRequest & Hd & Hq)].
    + rewrite handle_invalid_json by done.
      eexists _, _. split; [reflexivity|]. repeat split; eauto.
    + assert (assert_string (haRequest !! "query") = None) as Hnone.
      { destruct Hq as [->|(v & -> & Hv)]; [done|].
        destruct v; try done. by destruct (Hv s). }
      rewrite (handle_bad_query _ _ _ _ haRequest Hd Hnone).
      eexists _, _. split; [reflexivity|]. repeat split; eauto.
  - destruct (decide (Header_Get (Header r) "Authorization" = EmptyString))
      as [He|He].
    + rewrite authenticate_empty by done.
      eexists _, _. split; [reflexivity|]. repeat split; done.
    + rewrite authenticate_mismatch by done.
      eexists _, _. split; [reflexivity|]. repeat split; done.
Qed.

(** C7 as claimed does not hold: the body
    [{"query":"tell me a joke"} trailing garbage] is not valid JSON,
    while the object in front of the garbage alone is; the decoder stops
    after the object, and the request is answered with status 200 after
    one call of the backend. *)
Lemma invalid_json_is_served :
  Json.Valid body_query = true ∧
  Json.Valid body_trailing = false ∧
  ∃ st',
    ServeHTTP (templateHandler (H := stream_library) example_registry "default")
      (post ["Bearer secret"] body_trailing) example_state
    = (Responded {| StatusCode := 200; ContentType := "application/json";
                    Payload := "{...}" |}, st') ∧
    sent st' = [ollama_request example_config "{...}"].
Proof.
  split; [vm_compute; reflexivity|]. split; [vm_compute; reflexivity|].
  eexists. split; vm_compute; reflexivity.
Qed.

Lemma handle_depends_on_query_and_model tc name r1 r2 st m1 m2 :
  json_Decode (Body r1) = Some m1 →
  json_Decode (Body r2) = Some m2 →
  m1 !! "query" = m2 !! "query" →
  m1 !! "model" = m2 !! "model" →
  handle tc name r1 st = handle tc name r2 st.
Proof.
  intros Hd1 Hd2 Hq Hm. unfold handle, bind, model.
  rewrite Hd1, Hd2. cbn. rewrite Hq, Hm. reflexivity.
Qed.

(** C9: two requests with the same [Authorization] header whose bodies
    decode to objects that agree on [query] and [model] are handled
    identically, whatever other fields the objects carry: the same
    flow, the same payload in the same final state, the same requests
    sent to the backend. *)
Theorem extra_fields_ignored tc name r1 r2 st m1 m2 :
  Header_Get (Header r1) "Authorization" = Header_Get (Header r2) "Authorization" →
  json_Decode (Body r1) = Some m1 →
  json_Decode (Body r2) = Some m2 →
  m1 !! "query" = m2 !! "query" →
  m1 !! "model" = m2 !! "model" →
  templateHandler tc name r1 st = templateHandler tc name r2 st.
Proof.
  intros Hh Hd1 Hd2 Hq Hm. unfold templateHandler, authenticate, bind, get_config.
  cbn. rewrite Hh.
  destruct (bool_decide _); cbn.
  - destruct (slice_from _ _); reflexivity.
  - by apply handle_depends_on_query_and_model with m1 m2.
Qed.

End Requests.

Example serve_example :
  ServeHTTP (templateHandler (H := example_library) example_registry "default")
    (post ["Bearer secret"] body_query) example_state
  = (Responded {| StatusCode := 200; ContentType := "application/json";
                  Payload := "{...}" |},
     {| config :=
          with_OllamaParams example_config
            (Some (payload_of {[ "stream" := VBool false ]}
                     "tell me a joke Default template response." "llama2"));
        sent :=
          [ollama_request example_config "{...}"];
        written := Some {| StatusCode := 200; ContentType := "application/json";
                           Payload := "{...}" |} |}).
Proof. vm_compute. reflexivity. Qed.

(** C1 (where the code departs from it): handling one request changes
    the parameter map of the shared configuration. [ollamaRequest] is
    the map [config.OllamaParams] itself, not a copy, so after the
    request the configuration carries this request's prompt and model,
    and is no longer what it was at startup. *)
Theorem request_mutates_shared_config :
  let served :=
    ServeHTTP (templateHandler (H := example_library) example_registry "default")
      (post ["Bearer secret"] body_model) example_state in
  OllamaParams (config example_state) = Some {[ "stream" := VBool false ]} ∧
  OllamaParams (config served.2)
  = Some {[ "stream" := VBool false;
            "prompt" := VString "tell me a joke Default template response.";
            "model" := VString "mistral" ]} ∧
  OllamaParams (config served.2) ≠ OllamaParams (config example_state).
Proof.
  cbv zeta. split; [reflexivity|]. split.
  - vm_compute. reflexivity.
  - intros Heq.
    apply (f_equal (fun m => m ≫= (.!! "prompt"))) in Heq.
    vm_compute in Heq. discriminate.
Qed.

Lemma model_selection_witness :
  ∃ st',
    (templateHandler (H := example_library) example_registry "default"
       (post ["Bearer secret"] body_model) example_state).2 = st' ∧
    OllamaParams (config st') ≫= (.!! "model") = Some (VString "mistral").
Proof.
  destruct (model_selection (H := example_library) example_registry "default"
              (post ["Bearer secret"] body_model) example_state
              {[ "query" := VString joke; "model" := VString "mistral" ]}
              joke "tell me a joke Default template response."
              {[ "stream" := VBool false ]})
    as (payload & flow & st' & Hrun & Hp & _ & Hm & _);
    [vm_compute; reflexivity..|].
  exists st'. rewrite Hrun. split; [reflexivity|].
  rewrite Hp. cbn. apply Hm; [vm_compute; reflexivity | discriminate].
Defined.

Lemma invalid_request_rejected_witness :
  ∃ out st',
    ServeHTTP (templateHandler (H := example_library) example_registry "default")
      (post ["Bearer secret"] body_number) example_state = (out, st') ∧
    sent st' = [] ∧
    ∃ w, out = Responded w ∧ StatusCode w = 400.
Proof.
  destruct (invalid_request_rejected (H := example_library) example_registry
              "default" (post ["Bearer secret"] body_number) example_state)
    as (out & st' & Hrun & Hsent & _ & Hw).
  - right. exists {[ "query" := VFloat64 (float_of_Z 5) ]}.
    split; [vm_compute; reflexivity|].
    right. eexists. split; [vm_compute; reflexivity|]. discriminate.
  - exists out, st'. split; [exact Hrun|]. split; [exact Hsent|].
    apply Hw. vm_compute. reflexivity.
Defined.

Lemma extra_fields_ignored_witness :
  templateHandler (H := example_library) example_registry "default"
    (post ["Bearer secret"] body_query) example_state
  = templateHandler (H := example_library) example_registry "default"
      (post ["Bearer secret"] body_extra) example_state.
Proof.
  apply (extra_fields_ignored (H := example_library) example_registry "default"
           (post ["Bearer secret"] body_query) (post ["Bearer secret"] body_extra)
           example_state
           {[ "query" := VString joke ]}
           {[ "query" := VString joke; "temperature" := VFloat64 (float_of_Z 2) ]});
    vm_compute; reflexivity.
Defined.

(** ** Rendering *)


Example htmlEscaper_example :
  htmlEscaper "what's 2+2 & <why>?" = "what&#39;s 2&#43;2 &amp; &lt;why&gt;?".
Proof. reflexivity. Qed.


Lemma append_empty_r (s : string) : s +:+ EmptyString = s.
Proof.
  induction s as [|c s IH]; [done|].
  change (String c (s +:+ EmptyString) = String c s). by f_equal.
Qed.








(** ** Projection of the backend response *)

Lemma copy_field_lookup (m acc : gmap string Value) (field k : string) :
  copy_field m acc field !! k
  = if decide (field = k) then
      match m !! k with Some v => Some v | None => acc !! k end
    else acc !! k.
Proof.
  unfold copy_field. destruct (decide (field = k)) as [->|Hne].
  - destruct (m !! k); [by rewrite lookup_insert_eq|done].
  - destruct (m !! field); [by rewrite lookup_insert_ne|done].
Qed.

Lemma foldl_copy_field_lookup (m : gmap string Value) (fields : list string)
    (acc : gmap string Value) (k : string) :
  foldl (copy_field m) acc fields !! k
  = if decide (k ∈ fields) then
      match m !! k with Some v => Some v | None => acc !! k end
    else acc !! k.
Proof.
  revert acc. induction fields as [|field fields IH]; intros acc.
  - cbn. rewrite decide_False; [done|]. apply not_elem_of_nil.
  - cbn [foldl]. rewrite IH, copy_field_lookup.
    destruct (decide (field = k)) as [->|Hne].
    + rewrite (decide_True (P := k ∈ k :: fields)) by (apply elem_of_cons; by left).
      destruct (decide (k ∈ fields)); destruct (m !! k); done.
    + destruct (decide (k ∈ fields)) as [Hin|Hnin].
      * rewrite decide_True by (apply elem_of_cons; by right). done.
      * rewrite decide_False; [done|].
        intros [->|Hin]%elem_of_cons; done.
Qed.

Lemma copied_fields_lookup (config : Config) (resp : OllamaResponse)
    (m : gmap string Value) (k : string) :
  copied_fields config resp m !! k
  = match (if decide (k ∈ ResponseFields config) then m !! k else None) with
    | Some v => Some v
    | None => if decide (k = "response") then Some (VString (Response resp)) else None
    end.
Proof.
  unfold copied_fields. rewrite foldl_copy_field_lookup.
  assert (({[ "response" := VString (Response resp) ]} : gmap string Value) !! k
          = if decide (k = "response") then Some (VString (Response resp)) else None)
    as Hsingle.
  { destruct (decide (k = "response")) as [->|Hne].
    - apply lookup_singleton_eq.
    - by apply lookup_singleton_ne. }
  rewrite Hsingle.
  destruct (decide (k ∈ ResponseFields config)); [destruct (m !! k)|]; done.
Qed.

Lemma filteredResponse_other (config : Config) (resp : OllamaResponse)
    (m : gmap string Value) (k : string) :
  k ≠ "response" →
  filteredResponse config resp m !! k
  = if decide (k ∈ ResponseFields config) then m !! k else None.
Proof.
  intros Hne. unfold filteredResponse.
  assert (copied_fields config resp m !! k
          = if decide (k ∈ ResponseFields config) then m !! k else None) as Hc.
  { rewrite copied_fields_lookup, (decide_False (P := k = "response")) by done.
    destruct (decide (k ∈ ResponseFields config)); [destruct (m !! k)|]; done. }
  destruct (StripNewline config); [rewrite lookup_insert_ne by done|]; exact Hc.
Qed.

Lemma filteredResponse_response (config : Config) (resp : OllamaResponse)
    (m : gmap string Value) :
  filteredResponse config resp m !! "response"
  = if StripNewline config then Some (VString (ReplaceAll (Response resp) LF " "))
    else match (if decide ("response" ∈ ResponseFields config)
                then m !! "response" else None) with
         | Some v => Some v
         | None => Some (VString (Response resp))
         end.
Proof.
  unfold filteredResponse. destruct (StripNewline config).
  - apply lookup_insert_eq.
  - rewrite copied_fields_lookup.
    destruct (decide ("response" ∈ ResponseFields config));
      [destruct (m !! "response")|]; reflexivity.
Qed.

Lemma ReplaceAll_newline_cons (c : ascii) (s : string) :
  ReplaceAll (String c s) LF " "
  = String (space_for_newline c) (ReplaceAll s LF " ").
Proof.
  unfold ReplaceAll, LF, space_for_newline. cbn.
  destruct (bool_decide (c = "010"%char)); reflexivity.
Qed.

Lemma ReplaceAll_newline_get (s : string) (i : nat) :
  String.get i (ReplaceAll s LF " ") = space_for_newline <$> String.get i s.
Proof.
  revert i. induction s as [|c s IH]; intros i; [reflexivity|].
  rewrite ReplaceAll_newline_cons. destruct i as [|i]; [reflexivity|].
  cbn [String.get]. apply IH.
Qed.

Lemma ReplaceAll_newline_length (s : string) :
  String.length (ReplaceAll s LF " ") = String.length s.
Proof.
  induction s as [|c s IH]; [reflexivity|].
  rewrite ReplaceAll_newline_cons. cbn [String.length]. by rewrite IH.
Qed.

(** The example of the specification: allowlist [eval_count], newline
    replacement on ([example_config]). *)
Example projection_example :
  filteredResponse example_config backend_response backend_map
  = {[ "response" := VString "hi there"; "eval_count" := VFloat64 (float_of_Z 5) ]}.
Proof. vm_compute. reflexivity. Qed.

(** C5 as stated fails where the allowlist names ["response"] and the
    newline flag is on: the field is present in the backend mapping, but
    what the output holds under it is the stripped string, not a copy. *)
Lemma allowlisted_response_not_verbatim :
  "response" ∈ ResponseFields example_config_response ∧
  backend_map !! "response" = Some (VString ("hi" +:+ LF +:+ "there")) ∧
  filteredResponse example_config_response backend_response backend_map !! "response"
  = Some (VString "hi there") ∧
  filteredResponse example_config_response backend_response backend_map !! "response"
  ≠ backend_map !! "response".
Proof.
  split; [apply elem_of_cons; by left|].
  split; [vm_compute; reflexivity|].
  split; [vm_compute; reflexivity|].
  vm_compute. discriminate.
Qed.

(** C5, as the code has it: the keys of the output are ["response"] and
    the allowlisted names present in the backend mapping, nothing else;
    every allowlisted field present there is copied as it is, except that
    under ["response"] this holds only while the newline flag is off (with
    the flag on that key holds the stripped string of the typed parse);
    an allowlisted name absent from the backend mapping, or a backend
    field that is not allowlisted, adds no key. *)
Theorem projection_exact (config : Config) (resp : OllamaResponse)
    (m : gmap string Value) :
  (∀ k, is_Some (filteredResponse config resp m !! k) ↔
        k = "response" ∨ (k ∈ ResponseFields config ∧ is_Some (m !! k))) ∧
  (∀ k v, k ∈ ResponseFields config → m !! k = Some v →
          (k = "response" → StripNewline config = false) →
          filteredResponse config resp m !! k = Some v) ∧
  (∀ k, k ≠ "response" → k ∉ ResponseFields config ∨ m !! k = None →
        filteredResponse config resp m !! k = None).
Proof.
  split; [|split].
  - intros k. destruct (decide (k = "response")) as [->|Hne].
    + rewrite filteredResponse_response. split; [by left|]. intros _.
      destruct (StripNewline config); [by eexists|].
      destruct (decide ("response" ∈ ResponseFields config));
        [destruct (m !! "response")|]; by eexists.
    + rewrite filteredResponse_other by done.
      destruct (decide (k ∈ ResponseFields config)) as [Hin|Hnin].
      * split; [by right|]. by intros [?|[_ ?]].
      * split; [by intros [? [=]]|]. by intros [?|[? _]].
  - intros k v Hin Hm Hflag. destruct (decide (k = "response")) as [->|Hne].
    + rewrite filteredResponse_response, Hflag by done.
      by rewrite decide_True, Hm.
    + rewrite filteredResponse_other by done. by rewrite decide_True.
  - intros k Hne Habsent. rewrite filteredResponse_other by done.
    destruct (decide (k ∈ ResponseFields config)); [|done].
    by destruct Habsent.
Qed.

(** C6: with the newline flag on, the output's ["response"] is the
    response string of the typed parse with each newline byte replaced
    by one space and every other byte kept in place; every other key is
    what the loop copied from the backend mapping, flag on or off; with
    the flag off ["response"] holds a value of the backend unchanged
    (the typed string, or the mapping's entry when the allowlist names
    ["response"] and the mapping has it). *)
Theorem strip_newline_only_response (config : Config) (resp : OllamaResponse)
    (m : gmap string Value) :
  (StripNewline config = true →
   ∃ s, filteredResponse config resp m !! "response" = Some (VString s) ∧
        String.length s = String.length (Response resp) ∧
        ∀ i, String.get i s = space_for_newline <$> String.get i (Response resp)) ∧
  (∀ k, k ≠ "response" →
        filteredResponse config resp m !! k
        = if decide (k ∈ ResponseFields config) then m !! k else None) ∧
  (StripNewline config = false →
   filteredResponse config resp m !! "response" = Some (VString (Response resp)) ∨
   ("response" ∈ ResponseFields config ∧ is_Some (m !! "response") ∧
    filteredResponse config resp m !! "response" = m !! "response")).
Proof.
  split; [|split].
  - intros Hflag. rewrite filteredResponse_response, Hflag.
    eexists. split; [reflexivity|]. split.
    + apply ReplaceAll_newline_length.
    + apply ReplaceAll_newline_get.
  - intros k Hne. by apply filteredResponse_other.
  - intros Hflag. rewrite filteredResponse_response, Hflag.
    destruct (decide ("response" ∈ ResponseFields config)) as [Hin|Hnin];
      [|by left].
    destruct (m !! "response") as [v|] eqn:E; [|by left].
    right. eauto.
Qed.

Lemma strip_newline_only_response_witness :
  ∃ s, filteredResponse example_config backend_response backend_map !! "response"
       = Some (VString s) ∧
       String.length s = 8%nat ∧
       String.get 2 s = Some " "%char.
Proof.
  destruct (strip_newline_only_response example_config backend_response backend_map)
    as (Hstrip & _ & _).
  destruct (Hstrip eq_refl) as (s & Hs & Hlen & Hget).
  exists s. split; [exact Hs|]. split; [exact Hlen|]. apply Hget.
Defined.

(** C10: when the allowlist names ["response"], the loop overwrites the
    typed string with the entry of the backend mapping; the replacement
    comes after the loop, so with the flag on the output's ["response"]
    is the stripped typed string for every allowlist, and it has no
    newline byte left. *)
Theorem response_in_allowlist (config : Config) (resp : OllamaResponse)
    (m : gmap string Value) :
  (∀ v, "response" ∈ ResponseFields config → m !! "response" = Some v →
        copied_fields config resp m !! "response" = Some v) ∧
  (StripNewline config = true →
   filteredResponse config resp m
   = <["response" := VString (ReplaceAll (Response resp) LF " ")]>
       (copied_fields config resp m) ∧
   filteredResponse config resp m !! "response"
   = Some (VString (ReplaceAll (Response resp) LF " ")) ∧
   ∀ i, String.get i (ReplaceAll (Response resp) LF " ") ≠ Some "010"%char).
Proof.
  split.
  - intros v Hin Hm. rewrite copied_fields_lookup.
    by rewrite decide_True, Hm.
  - intros Hflag. split; [|split].
    + unfold filteredResponse. by rewrite Hflag.
    + by rewrite filteredResponse_response, Hflag.
    + intros i. rewrite ReplaceAll_newline_get.
      destruct (String.get i (Response resp)) as [c|]; [|done].
      cbn. unfold space_for_newline. intros [= Hc].
      destruct (bool_decide (c = "010"%char)) eqn:E; [done|].
      by apply bool_decide_eq_false in E.
Qed.

Lemma response_in_allowlist_witness :
  copied_fields example_config_response backend_response backend_map !! "response"
  = Some (VString ("hi" +:+ LF +:+ "there")) ∧
  filteredResponse example_config_response backend_response backend_map !! "response"
  = Some (VString "hi there").
Proof.
  destruct (response_in_allowlist example_config_response backend_response backend_map)
    as (Hcopy & Hstrip).
  split.
  - apply Hcopy; [apply elem_of_cons; by left | vm_compute; reflexivity].
  - destruct (Hstrip eq_refl) as (_ & Hr & _). exact Hr.
Defined.

Example ReplaceAll_examples :
  ReplaceAll "aXYbXYXY" "XY" "-" = "a-b--" ∧ ReplaceAll "aaa" "aa" "b" = "ba" ∧
  ReplaceAll "ab" "" "-" = "-a-b-" ∧
  ReplaceAll (String "195" (String "169" "t" +:+ String "233" "")) "" "-"
  = "-" +:+ String "195" (String "169" "-t-") +:+ String "233" "-".
Proof. repeat split. Qed.

Lemma projection_exact_witness :
  filteredResponse example_config backend_response backend_map !! "eval_count"
  = Some (VFloat64 (float_of_Z 5)) ∧
  filteredResponse example_config backend_response backend_map !! "done" = None.
Proof.
  destruct (projection_exact example_config backend_response backend_map)
    as (_ & Hcopy & Hnone).
  split.
  - apply Hcopy; [apply elem_of_cons; by left | vm_compute; reflexivity | discriminate].
  - apply Hnone; [discriminate|]. left.
    intros [[=]|[]%elem_of_nil]%elem_of_cons.
Defined.

(** ** The template registry *)

Lemma ext_scan_length (path e : string) :
  ext_scan path = Some e → (String.length e ≤ String.length path)%nat.
Proof.
  revert e. induction path as [|c rest IH]; intros e; [done|].
  cbn [ext_scan]. destruct (ext_scan rest) as [e'|].
  - intros [= <-]. specialize (IH e' eq_refl). cbn [String.length]. lia.
  - destruct (bool_decide (c = "."%char)); [by intros [= <-]|].
    destruct (bool_decide (c = "/"%char)); [|done].
    intros [= <-]. cbn. lia.
Qed.

(** The slice of main.go:107 is in range. *)
Lemma Ext_json_length (templateName : string) :
  filepath_Ext templateName = ".json" →
  (String.length ".json" ≤ String.length templateName)%nat.
Proof.
  unfold filepath_Ext. destruct (ext_scan templateName) as [e|] eqn:E; [|done].
  simpl. intros He. subst e. by apply ext_scan_length in E.
Qed.

Example filepath_Ext_examples :
  filepath_Ext "default.json" = ".json" ∧ filepath_Ext "notes.txt" = ".txt" ∧
  filepath_Ext "README" = "" ∧ filepath_Ext "a.json.bak" = ".bak" ∧
  filepath_Ext ".json" = ".json".
Proof. repeat split. Qed.

Section Registry.
Context `{Library}.

Lemma foldl_load_file_none (files : list (string * option string))
    (templates : gmap string Template) :
  (∀ name content, (name, Some content) ∈ files →
     filepath_Ext name = ".json" → template_Parse name content = None) →
  foldl load_file templates files = templates.
Proof.
  induction files as [|[name content] files IH]; intros Hnone; [done|].
  cbn [foldl].
  assert (load_file templates (name, content) = templates) as ->.
  { unfold load_file. cbn [fst snd].
    destruct (bool_decide (filepath_Ext name = ".json")) eqn:E; [|done].
    apply bool_decide_eq_true in E.
    destruct content as [templateString|]; [|done].
    rewrite (Hnone name templateString); [done| |done].
    apply elem_of_cons. by left. }
  apply IH. intros name' content' Hin. apply Hnone.
  apply elem_of_cons. by right.
Qed.

(** C8: initialization never succeeds with an empty registry; and when
    no file of the directory parses (the directory may be empty, or
    absent and then created), the registry holds exactly one entry, the
    built-in template under the name ["default"], which is also written
    to [default.json] unless the write fails. *)
Theorem registry_bootstrap (templatesDir : string) (fs : FileSystem) :
  (∀ tc fs', loadAndCacheTemplates templatesDir fs = (Ok tc, fs') →
             Templates tc ≠ ∅) ∧
  (∀ tmpl,
     template_Parse "default" defaultTemplateContent = Some tmpl →
     (dirs fs !! templatesDir = None → MkdirAll_fails fs = false) →
     ReadDir_fails fs = false →
     (∀ files name content,
        dirs fs !! templatesDir = Some files → (name, Some content) ∈ files →
        filepath_Ext name = ".json" → template_Parse name content = None) →
     ∃ tc fs',
       loadAndCacheTemplates templatesDir fs = (Ok tc, fs') ∧
       Templates tc = {[ "default" := tmpl ]} ∧
       size (Templates tc) = 1%nat ∧
       (WriteFile_fails fs = false →
        ∃ files', dirs fs' !! templatesDir = Some files' ∧
                  ("default.json", Some defaultTemplateContent) ∈ files')).
Proof.
  split.
  - intros tc fs'. unfold loadAndCacheTemplates.
    destruct (dirs fs !! templatesDir) as [files|] eqn:Edir.
    + destruct (ReadDir_fails fs); [done|]. rewrite Edir.
      destruct (bool_decide (size (foldl load_file ∅ files) = 0%nat)) eqn:Esize.
      * destruct (template_Parse "default" defaultTemplateContent); [|done].
        intros [= <- _]. apply insert_non_empty.
      * intros [= <- _].
        apply bool_decide_eq_false in Esize.
        intros Hempty. apply Esize.
        change (Templates _) with (foldl load_file ∅ files) in Hempty.
        rewrite Hempty. apply map_size_empty.
    + destruct (MkdirAll_fails fs); [done|].
      change (ReadDir_fails _) with (ReadDir_fails fs).
      destruct (ReadDir_fails fs); [done|].
      change (dirs {| dirs := ?d; MkdirAll_fails := _; ReadDir_fails := _;
                      WriteFile_fails := _ |}) with d.
      rewrite lookup_insert_eq.
      change (foldl load_file ∅ []) with (∅ : gmap string Template).
      rewrite map_size_empty, bool_decide_eq_true_2 by done.
      destruct (template_Parse "default" defaultTemplateContent); [|done].
      intros [= <- _]. apply insert_non_empty.
  - intros tmpl Hdefault Hmkdir Hreaddir Hnone. unfold loadAndCacheTemplates.
    destruct (dirs fs !! templatesDir) as [files|] eqn:Edir.
    + rewrite Hreaddir, Edir.
      rewrite (foldl_load_file_none files ∅) by (intros ???; by eapply Hnone).
      rewrite map_size_empty, bool_decide_eq_true_2 by done. rewrite Hdefault.
      eexists _, _. split; [reflexivity|].
      split; [reflexivity|].
      split; [cbn [Templates]; rewrite insert_empty; apply map_size_singleton|].
      intros ->. eexists. split; [apply lookup_insert_eq|].
      unfold write_file. apply elem_of_app. right. apply elem_of_cons. by left.
    + rewrite Hmkdir by done.
      change (ReadDir_fails _) with (ReadDir_fails fs). rewrite Hreaddir.
      change (dirs {| dirs := ?d; MkdirAll_fails := _; ReadDir_fails := _;
                      WriteFile_fails := _ |}) with d.
      rewrite lookup_insert_eq.
      change (foldl load_file ∅ []) with (∅ : gmap string Template).
      rewrite map_size_empty, bool_decide_eq_true_2 by done. rewrite Hdefault.
      eexists _, _. split; [reflexivity|].
      split; [reflexivity|].
      split; [cbn [Templates]; rewrite insert_empty; apply map_size_singleton|].
      change (WriteFile_fails _) with (WriteFile_fails fs).
      intros ->. eexists. split; [apply lookup_insert_eq|].
      unfold write_file. apply elem_of_app. right. apply elem_of_cons. by left.
Qed.

End Registry.

Lemma registry_bootstrap_witness :
  ∃ tc fs',
    loadAndCacheTemplates (H := example_library) "./templates" example_fs = (Ok tc, fs') ∧
    Templates tc = {[ "default" := default_template ]} ∧
    size (Templates tc) = 1%nat.
Proof.
  destruct (registry_bootstrap (H := example_library) "./templates" example_fs)
    as [_ Hboot].
  destruct (Hboot default_template) as (tc & fs' & Hrun & Htc & Hsize & _).
  - reflexivity.
  - intros Hdir. reflexivity.
  - reflexivity.
  - intros files name content Hdir Hin Hext.
    vm_compute in Hdir. injection Hdir as <-.
    apply elem_of_cons in Hin as [[= -> ->]|Hin]; [reflexivity|].
    apply elem_of_cons in Hin as [[=]|Hin].
    apply elem_of_cons in Hin as [[= -> ->]|Hin]; [discriminate Hext|].
    by apply elem_of_nil in Hin.
  - exists tc, fs'. split; [exact Hrun|]. split; [exact Htc|exact Hsize].
Defined.

(** * Further properties of the handler *)

Lemma with_OllamaParams_same (c : Config) :
  with_OllamaParams c (OllamaParams c) = c.
Proof. by destruct c. Qed.

Lemma with_OllamaParams_back (c : Config) (m : option (gmap string Value)) :
  with_OllamaParams (with_OllamaParams c m) (OllamaParams c) = c.
Proof. by destruct c. Qed.

Section Frame.
Context `{Library}.
Implicit Types (tc : TemplateConfig) (name : string) (r : Request) (st : State).

(** Every run of the closure: the fields of the configuration other
    than the parameter map stay as they are, at most one request goes to
    the backend, and what is written, if anything, has one of four
    statuses. *)
Lemma handle_frame tc name r st :
  ∃ flow st',
    handle tc name r st = (flow, st') ∧
    with_OllamaParams (config st') (OllamaParams (config st)) = config st ∧
    (sent st' = sent st ∨
     ∃ requestBody,
       sent st' = (sent st ++ [ollama_request (config st) requestBody])%list) ∧
    (written st' = written st ∨
     ∃ w, written st' = Some w ∧
          (StatusCode w = 200 ∨ StatusCode w = 400 ∨ StatusCode w = 500)).
Proof.
  destruct (json_Decode (Body r)) as [haRequest|] eqn:Hd.
  2:{ rewrite handle_invalid_json by done. eexists _, _. split; [reflexivity|].
      split; [apply with_OllamaParams_same|]. split; [by left|].
      right. eexists. split; [reflexivity|]. cbn. auto. }
  destruct (assert_string (haRequest !! "query")) as [query|] eqn:Hq.
  2:{ rewrite (handle_bad_query _ _ _ _ haRequest) by done.
      eexists _, _. split; [reflexivity|].
      split; [apply with_OllamaParams_same|]. split; [by left|].
      right. eexists. split; [reflexivity|]. cbn. auto. }
  assert (haRequest !! "query" = Some (VString query)) as Hq'.
  { destruct (haRequest !! "query") as [[]|]; cbn in Hq; congruence. }
  destruct (fullPrompt tc name query) as [prompt|e] eqn:Hp.
  2:{ unfold handle, bind. rewrite Hd. cbn. rewrite Hq. cbn. rewrite Hp. cbn.
      eexists _, _. split; [reflexivity|].
      split; [apply with_OllamaParams_same|]. split; [by left|].
      right. eexists. split; [reflexivity|]. cbn. auto. }
  destruct (OllamaParams (config st)) as [params|] eqn:Hparams.
  2:{ rewrite (handle_nil_map _ _ _ _ haRequest query prompt) by done.
      eexists _, _. split; [reflexivity|]. rewrite <- Hparams.
      split; [apply with_OllamaParams_same|]. split; by left. }
  rewrite (handle_builds _ _ _ _ haRequest query prompt params) by done.
  set (st1 := set_config st _).
  unfold exchange, bind, read_OllamaParams. cbn.
  destruct (json_Marshal _) as [requestBody|]; cbn.
  2:{ eexists _, _. split; [reflexivity|]. rewrite <- Hparams.
      split; [apply with_OllamaParams_back|]. split; by left. }
  destruct (http_NewRequest_ok _ _); cbn.
  2:{ eexists _, _. split; [reflexivity|]. rewrite <- Hparams.
      split; [apply with_OllamaParams_back|]. split; by left. }
  assert (∀ (flow : Flow unit) w,
    (w = written st ∨ ∃ x, w = Some x ∧ StatusCode x = 200) →
    ∃ flow' st',
      (flow, {| config := config st1;
                sent := (sent st ++ [ollama_request (config st) requestBody])%list;
                written := w |}) = (flow', st') ∧
      with_OllamaParams (config st') (Some params) = config st ∧
      (sent st' = sent st ∨
       ∃ requestBody,
         sent st' = (sent st ++ [ollama_request (config st) requestBody])%list) ∧
      (written st' = written st ∨
       ∃ w, written st' = Some w ∧
            (StatusCode w = 200 ∨ StatusCode w = 400 ∨ StatusCode w = 500)))
    as Hend.
  { intros flow w Hw. eexists _, _. split; [reflexivity|]. cbn.
    split; [rewrite <- Hparams; apply with_OllamaParams_back|].
    split; [right; eauto|].
    destruct Hw as [->|(x & -> & Hx)]; [by left|right; eauto]. }
  destruct (client_Do _ _) as [[body|]|]; cbn;
    [|exact (Hend Return _ (or_introl eq_refl))..].
  destruct (json_Unmarshal_OllamaResponse body); cbn;
    [|exact (Hend Return _ (or_introl eq_refl))].
  destruct (json_Unmarshal_map body); cbn;
    [|exact (Hend Return _ (or_introl eq_refl))].
  destruct (json_Marshal (Some _)) as [responseBody|]; cbn;
    [|exact (Hend Return _ (or_introl eq_refl))].
  apply (Hend (Next tt)). right. eexists. split; reflexivity.
Qed.

Lemma serve_frame tc name r st :
  ∃ out st',
    ServeHTTP (templateHandler tc name) r st = (out, st') ∧
    with_OllamaParams (config st') (OllamaParams (config st)) = config st ∧
    (sent st' = sent st ∨
     ∃ requestBody,
       sent st' = (sent st ++ [ollama_request (config st) requestBody])%list) ∧
    (out = ConnectionAborted ∨
     ∃ w, out = Responded w ∧
          (StatusCode w = 200 ∨ StatusCode w = 400 ∨ StatusCode w = 401 ∨
           StatusCode w = 500)).
Proof.
  unfold ServeHTTP, templateHandler.
  destruct (decide (Header_Get (Header r) "Authorization"
                    = "Bearer " +:+ AuthToken (config st))) as [Hauth|Hauth].
  - rewrite authenticate_match by done.
    destruct (handle_frame tc name r (set_written st None))
      as (flow & st' & -> & Hc & Hs & Hw).
    assert (∃ w, default empty_ok (written st') = w ∧
                 (StatusCode w = 200 ∨ StatusCode w = 400 ∨ StatusCode w = 401 ∨
                  StatusCode w = 500)) as (w & Hdef & Hstatus).
    { destruct Hw as [->|(w & -> & Hw)]; eexists; (split; [reflexivity|]).
      - by left.
      - cbn. tauto. }
    destruct flow; eexists _, st'; (split; [reflexivity|]);
      (split; [exact Hc|]); (split; [exact Hs|]);
      [right; exists w; subst w; split; [reflexivity|exact Hstatus]..|by left].
  - destruct (decide (Header_Get (Header r) "Authorization" = EmptyString))
      as [He|He].
    + rewrite authenticate_empty by done.
      eexists _, _. split; [reflexivity|].
      split; [apply with_OllamaParams_same|]. split; by left.
    + rewrite authenticate_mismatch by done.
      eexists _, _. split; [reflexivity|].
      split; [apply with_OllamaParams_same|]. split; [by left|].
      right. eexists. split; [reflexivity|]. cbn. tauto.
Qed.

(** X1: handling a request, whatever it is, changes no field of the
    shared configuration other than the parameter map; in particular
    the token the next request is checked against, the default model
    and the allowlist are the ones of startup. *)
Theorem only_params_can_change tc name r st :
  let st' := (ServeHTTP (templateHandler tc name) r st).2 in
  with_OllamaParams (config st') (OllamaParams (config st)) = config st ∧
  AuthToken (config st') = AuthToken (config st) ∧
  DefaultModel (config st') = DefaultModel (config st) ∧
  ResponseFields (config st') = ResponseFields (config st).
Proof.
  cbv zeta. destruct (serve_frame tc name r st) as (out & st' & -> & Hc & _).
  cbn [snd]. split; [exact Hc|].
  by rewrite <- (f_equal AuthToken Hc), <- (f_equal DefaultModel Hc),
    <- (f_equal ResponseFields Hc).
Qed.

(** X2: the handler calls [client.Do] at most once for an inbound
    request, with no retry on any path, and the request it passes is a
    POST to the configured URL with the backend key as bearer token,
    the JSON content type and the configured timeout. [sent] lists the
    requests passed to [client.Do]; the requests that the client makes
    on its own inside the call, when the backend redirects, are not in
    it. *)
Theorem at_most_one_backend_request tc name r st :
  let st' := (ServeHTTP (templateHandler tc name) r st).2 in
  sent st' = sent st ∨
  ∃ req,
    sent st' = (sent st ++ [req])%list ∧
    Method req = "POST" ∧
    URL req = APIURL (config st) ∧
    Header_Get (Header req) "Authorization" = "Bearer " +:+ APIKey (config st) ∧
    Header_Get (Header req) "Content-Type" = "application/json" ∧
    Deadline req = Some (seconds (RequestTimeout (config st))).
Proof.
  cbv zeta. destruct (serve_frame tc name r st) as (out & st' & -> & _ & Hs & _).
  cbn [snd]. destruct Hs as [Hs|(requestBody & Hs)]; [by left|].
  right. eexists. split; [exact Hs|]. repeat split.
Qed.

(** X3: the server answers with status 200, 400, 401 or 500, or drops
    the connection after a panic; no other status is ever written. *)
Theorem served_statuses tc name r st :
  let out := (ServeHTTP (templateHandler tc name) r st).1 in
  out = ConnectionAborted ∨
  ∃ w, out = Responded w ∧
       (StatusCode w = 200 ∨ StatusCode w = 400 ∨ StatusCode w = 401 ∨
        StatusCode w = 500).
Proof.
  cbv zeta. destruct (serve_frame tc name r st) as (out & st' & -> & _ & _ & Ho).
  exact Ho.
Qed.

End Frame.

Section Paths.
Context `{Library}.
Implicit Types (tc : TemplateConfig) (name : string) (r : Request) (st : State).

(** X4: a request whose [Authorization] header is not exactly
    ["Bearer " + token] is turned away before its body is looked at:
    nothing is sent to the backend and the configuration is untouched,
    whatever the body and the template. The answer is the 401 when the
    header is not empty, and the dropped connection when it is. *)
Theorem unauthorized_request_is_inert tc name r st :
  Header_Get (Header r) "Authorization" ≠ "Bearer " +:+ AuthToken (config st) →
  ∃ out st',
    ServeHTTP (templateHandler tc name) r st = (out, st') ∧
    config st' = config st ∧
    sent st' = sent st ∧
    (Header_Get (Header r) "Authorization" ≠ EmptyString →
     out = Responded unauthorized) ∧
    (Header_Get (Header r) "Authorization" = EmptyString →
     out = ConnectionAborted).
Proof.
  intros Hauth. unfold ServeHTTP, templateHandler.
  destruct (decide (Header_Get (Header r) "Authorization" = EmptyString))
    as [He|He].
  - rewrite authenticate_empty by done.
    eexists _, _. split; [reflexivity|]. by repeat split.
  - rewrite authenticate_mismatch by done.
    eexists _, _. split; [reflexivity|]. by repeat split.
Qed.

(** X5: with a configuration file that has no [ollama_params] the map
    is nil, and no authorized request with a string query is forwarded.
    When the prompt is produced (the template of the route executes, or
    the route has none) the handler panics at the assignment of
    main.go:187: the connection is dropped, nothing is written and
    nothing is sent to the backend. When the template fails to execute
    the answer is the 500 of main.go:171, the assignment not being
    reached. *)
Theorem nil_params_drop_connection tc name r st haRequest query :
  Header_Get (Header r) "Authorization" = "Bearer " +:+ AuthToken (config st) →
  json_Decode (Body r) = Some haRequest →
  haRequest !! "query" = Some (VString query) →
  OllamaParams (config st) = None →
  ServeHTTP (templateHandler tc name) r st
  = match fullPrompt tc name query with
    | Ok _ => (ConnectionAborted, set_written st None)
    | Err _ =>
        (Responded (internal_error "Template processing failed"),
         set_written st (Some (internal_error "Template processing failed")))
    end.
Proof.
  intros Hauth Hd Hq Hnil. unfold ServeHTTP, templateHandler.
  rewrite authenticate_match by done.
  destruct (fullPrompt tc name query) as [prompt|e] eqn:Hp.
  - by rewrite (handle_nil_map _ _ _ _ haRequest query prompt).
  - unfold handle, bind. cbn. rewrite Hd. cbn. rewrite Hq. cbn. rewrite Hp.
    reflexivity.
Qed.

(** X6: when the template of the route fails to execute, the answer is
    HTTP 500 with the text "Template processing failed"; the
    configuration is not touched and nothing is sent to the backend. *)
Theorem render_failure_is_500 tc name r st haRequest query tmpl err :
  Header_Get (Header r) "Authorization" = "Bearer " +:+ AuthToken (config st) →
  json_Decode (Body r) = Some haRequest →
  haRequest !! "query" = Some (VString query) →
  Templates tc !! name = Some tmpl →
  Execute tmpl {| Query := query |} = Err err →
  ServeHTTP (templateHandler tc name) r st
  = (Responded (internal_error "Template processing failed"),
     set_written st (Some (internal_error "Template processing failed"))).
Proof.
  intros Hauth Hd Hq Ht He. unfold ServeHTTP, templateHandler.
  rewrite authenticate_match by done.
  assert (fullPrompt tc name query = Err err) as Hp.
  { unfold fullPrompt, processTemplate. by rewrite Ht, He. }
  unfold handle, bind. cbn. rewrite Hd. cbn. rewrite Hq. cbn. rewrite Hp.
  reflexivity.
Qed.

(** X7: the payload is the static parameter map with ["prompt"] and
    ["model"] set: ["prompt"] holds the rendered prompt, every other
    static key keeps its value, and a ["prompt"] or ["model"] of the
    configuration file is overwritten. *)
Theorem payload_merges_static_params tc name r st haRequest query prompt params :
  Header_Get (Header r) "Authorization" = "Bearer " +:+ AuthToken (config st) →
  json_Decode (Body r) = Some haRequest →
  haRequest !! "query" = Some (VString query) →
  fullPrompt tc name query = Ok prompt →
  OllamaParams (config st) = Some params →
  ∃ payload,
    OllamaParams (config (templateHandler tc name r st).2) = Some payload ∧
    payload !! "prompt" = Some (VString prompt) ∧
    (∃ m, payload !! "model" = Some (VString m)) ∧
    (∀ k, k ≠ "prompt" → k ≠ "model" → payload !! k = params !! k) ∧
    dom payload = dom params ∪ {[ "prompt"; "model" ]}.
Proof.
  intros Hauth Hd Hq Hp Hparams.
  destruct (templateHandler_payload _ _ _ _ _ _ _ _ Hauth Hd Hq Hp Hparams)
    as (flow & st' & -> & Hc & _).
  cbn [snd]. rewrite Hc. eexists. split; [reflexivity|]. unfold payload_of.
  split; [by rewrite lookup_insert_ne, lookup_insert_eq|].
  split; [eexists; apply lookup_insert_eq|].
  split; [intros k Hk1 Hk2; by rewrite !lookup_insert_ne|].
  rewrite !dom_insert_L. apply set_eq. intros k.
  rewrite !elem_of_union, !elem_of_singleton. tauto.
Qed.

(** What a request, whatever it is, leaves of the configuration: what
    it found, or the same with the prompt and the model of this request
    in the parameter map. *)
Lemma templateHandler_leaves tc name r st params :
  OllamaParams (config st) = Some params →
  ∃ flow st',
    templateHandler tc name r st = (flow, st') ∧
    (config st' = config st ∨
     ∃ prompt m,
       config st'
       = with_OllamaParams (config st) (Some (payload_of params prompt m))).
Proof.
  intros Hparams. unfold templateHandler.
  destruct (decide (Header_Get (Header r) "Authorization"
                    = "Bearer " +:+ AuthToken (config st))) as [Hauth|Hauth].
  - rewrite authenticate_match by done.
    destruct (json_Decode (Body r)) as [haRequest|] eqn:Hd.
    2:{ rewrite handle_invalid_json by done.
        eexists _, _. split; [reflexivity|]. by left. }
    destruct (assert_string (haRequest !! "query")) as [query|] eqn:Hq.
    2:{ rewrite (handle_bad_query _ _ _ _ haRequest) by done.
        eexists _, _. split; [reflexivity|]. by left. }
    assert (haRequest !! "query" = Some (VString query)) as Hq'.
    { destruct (haRequest !! "query") as [[]|]; cbn in Hq; congruence. }
    destruct (fullPrompt tc name query) as [prompt|e] eqn:Hp.
    2:{ unfold handle, bind. rewrite Hd. cbn. rewrite Hq. cbn. rewrite Hp. cbn.
        eexists _, _. split; [reflexivity|]. by left. }
    rewrite (handle_builds _ _ _ _ haRequest query prompt params) by done.
    destruct (exchange_effects (config st)
                (set_config st
                   (with_OllamaParams (config st)
                      (Some (payload_of params prompt
                               (model (config st) haRequest))))))
      as (flow & st' & -> & Hc & _).
    eexists _, _. split; [reflexivity|]. right.
    exists prompt, (model (config st) haRequest). exact Hc.
  - destruct (decide (Header_Get (Header r) "Authorization" = EmptyString))
      as [He|He].
    + rewrite authenticate_empty by done.
      eexists _, _. split; [reflexivity|]. by left.
    + rewrite authenticate_mismatch by done.
      eexists _, _. split; [reflexivity|]. by left.
Qed.

(** X8: a request that gets as far as the payload (authorized, with a
    body that decodes to an object with a string query and a prompt
    that is produced) does not see the request handled before it,
    whatever that one was, served or rejected. After [r1], the request
    [r2] leaves the configuration exactly as it would have from the
    startup state, and passes [client.Do] the same requests: the prompt
    and the model that [r1] left in the shared map are overwritten,
    never merged or reused. *)
Theorem payload_independent_of_history tc name1 name2 r1 r2 st
    haRequest2 query2 prompt2 params :
  Header_Get (Header r2) "Authorization" = "Bearer " +:+ AuthToken (config st) →
  json_Decode (Body r2) = Some haRequest2 →
  haRequest2 !! "query" = Some (VString query2) →
  fullPrompt tc name2 query2 = Ok prompt2 →
  OllamaParams (config st) = Some params →
  let st1 := (templateHandler tc name1 r1 st).2 in
  let st2 := (templateHandler tc name2 r2 st1).2 in
  let alone := (templateHandler tc name2 r2 st).2 in
  config st2 = config alone ∧
  drop (length (sent st1)) (sent st2) = drop (length (sent st)) (sent alone).
Proof.
  intros Ha2 Hd2 Hq2 Hp2 Hparams.
  destruct (templateHandler_leaves tc name1 r1 st params Hparams)
    as (flow1 & st1 & Hrun1 & Hleft).
  assert (∃ params1,
            config st1 = with_OllamaParams (config st) (Some params1) ∧
            ∀ prompt m, payload_of params1 prompt m = payload_of params prompt m)
    as (params1 & Hc1 & Hover).
  { destruct Hleft as [Hsame|(prompt1 & m1 & Hset)].
    - exists params. split; [|done].
      by rewrite Hsame, <- Hparams, with_OllamaParams_same.
    - eexists. split; [exact Hset|]. intros. apply payload_of_overwrites. }
  destruct (templateHandler_payload _ _ _ _ _ _ _ _ Ha2 Hd2 Hq2 Hp2 Hparams)
    as (flow & alone & Hrun & Hc & Hs).
  assert (Header_Get (Header r2) "Authorization"
          = "Bearer " +:+ AuthToken (config st1)) as Ha2' by (by rewrite Hc1).
  assert (OllamaParams (config st1) = Some params1) as Hparams1
    by (by rewrite Hc1).
  destruct (templateHandler_payload _ _ _ _ _ _ _ _ Ha2' Hd2 Hq2 Hp2 Hparams1)
    as (flow2 & st2 & Hrun2 & Hc2 & Hs2).
  cbv zeta. rewrite Hrun1. cbn [snd]. rewrite Hrun2, Hrun. cbn [snd].
  rewrite Hover in Hc2, Hs2.
  assert (model (config st1) haRequest2 = model (config st) haRequest2) as Hm
    by (by rewrite Hc1).
  assert (APIURL (config st1) = APIURL (config st)) as Hurl by (by rewrite Hc1).
  assert (∀ b, ollama_request (config st1) b = ollama_request (config st) b) as Hreq
    by (intros b; by rewrite Hc1).
  rewrite Hm, Hurl in Hs2. rewrite Hm in Hc2.
  split; [rewrite Hc2, Hc, Hc1; reflexivity|].
  destruct (json_Marshal _) as [requestBody|].
  - destruct (http_NewRequest_ok _ _).
    + rewrite Hs2, Hs, Hreq. by rewrite !drop_app_length.
    + rewrite Hs2, Hs. by rewrite !drop_all.
  - rewrite Hs2, Hs. by rewrite !drop_all.
Qed.

(** X9: the complete exchange. When every step succeeds the client gets
    status 200 with content type [application/json] and, as body, the
    marshalled projection of the backend's answer; the backend was
    called once, with a POST to the configured URL whose body is the
    marshalled payload, byte for byte. *)
Theorem successful_exchange tc name r st haRequest query prompt params
    requestBody body ollamaResponse ollamaResponseMap responseBody :
  Header_Get (Header r) "Authorization" = "Bearer " +:+ AuthToken (config st) →
  json_Decode (Body r) = Some haRequest →
  haRequest !! "query" = Some (VString query) →
  fullPrompt tc name query = Ok prompt →
  OllamaParams (config st) = Some params →
  json_Marshal (Some (payload_of params prompt (model (config st) haRequest)))
  = Some requestBody →
  http_NewRequest_ok "POST" (APIURL (config st)) = true →
  client_Do (length (sent st)) (ollama_request (config st) requestBody)
  = Some (Some body) →
  json_Unmarshal_OllamaResponse body = Some ollamaResponse →
  json_Unmarshal_map body = Some ollamaResponseMap →
  json_Marshal (Some (filteredResponse (config st) ollamaResponse ollamaResponseMap))
  = Some responseBody →
  ∃ st' req,
    ServeHTTP (templateHandler tc name) r st
    = (Responded {| StatusCode := 200; ContentType := "application/json";
                    Payload := responseBody |}, st') ∧
    sent st' = (sent st ++ [req])%list ∧
    Method req = "POST" ∧
    URL req = APIURL (config st) ∧
    Body req = requestBody.
Proof.
  intros Hauth Hd Hq Hp Hparams Hm Hok Hdo Hresp Hmap Hout.
  unfold ServeHTTP, templateHandler. rewrite authenticate_match by done.
  rewrite (handle_builds _ _ _ _ haRequest query prompt params) by done.
  unfold exchange, bind, read_OllamaParams, do_request. cbn.
  rewrite Hm. cbn. rewrite Hok. cbn. rewrite Hdo. cbn.
  rewrite Hresp. cbn. rewrite Hmap. cbn.
  change (filteredResponse (with_OllamaParams (config st) _) ollamaResponse
            ollamaResponseMap)
    with (filteredResponse (config st) ollamaResponse ollamaResponseMap).
  rewrite Hout. cbn. eexists _, _. repeat split.
Qed.

(** X10: a backend that cannot be reached, or whose body cannot be read
    or decoded, is not reported as an error: the handler returns without
    writing, so the client gets status 200 with an empty body. The one
    call is not repeated. *)
Theorem backend_failure_is_empty_200 tc name r st haRequest query prompt params
    requestBody :
  Header_Get (Header r) "Authorization" = "Bearer " +:+ AuthToken (config st) →
  json_Decode (Body r) = Some haRequest →
  haRequest !! "query" = Some (VString query) →
  fullPrompt tc name query = Ok prompt →
  OllamaParams (config st) = Some params →
  json_Marshal (Some (payload_of params prompt (model (config st) haRequest)))
  = Some requestBody →
  http_NewRequest_ok "POST" (APIURL (config st)) = true →
  match client_Do (length (sent st)) (ollama_request (config st) requestBody) with
  | Some (Some body) =>
      json_Unmarshal_OllamaResponse body = None ∨ json_Unmarshal_map body = None
  | _ => True
  end →
  ∃ st',
    ServeHTTP (templateHandler tc name) r st = (Responded empty_ok, st') ∧
    written st' = None ∧
    sent st' = (sent st ++ [ollama_request (config st) requestBody])%list.
Proof.
  intros Hauth Hd Hq Hp Hparams Hm Hok Hfail.
  unfold ServeHTTP, templateHandler. rewrite authenticate_match by done.
  rewrite (handle_builds _ _ _ _ haRequest query prompt params) by done.
  unfold exchange, bind, read_OllamaParams, do_request. cbn.
  rewrite Hm. cbn. rewrite Hok. cbn.
  destruct (client_Do _ _) as [[body|]|]; cbn;
    [|eexists; split; [reflexivity|split; reflexivity]..].
  destruct (json_Unmarshal_OllamaResponse body); cbn;
    [|eexists; split; [reflexivity|split; reflexivity]].
  destruct Hfail as [[=]|Hmap]. rewrite Hmap. cbn.
  eexists; split; [reflexivity|split; reflexivity].
Qed.

(** X19: of an inbound request the handler reads the [Authorization]
    header and the body, nothing else: the method, the path, the other
    headers (the content type among them) and the remote address never
    change what it does. *)
Theorem only_authorization_and_body_matter tc name r1 r2 st :
  Header_Get (Header r1) "Authorization" = Header_Get (Header r2) "Authorization" →
  Body r1 = Body r2 →
  ServeHTTP (templateHandler tc name) r1 st = ServeHTTP (templateHandler tc name) r2 st.
Proof.
  intros Hh Hb. unfold ServeHTTP. f_equal.
  unfold templateHandler, authenticate, bind, get_config. cbn. rewrite Hh.
  destruct (bool_decide _); cbn.
  - destruct (slice_from _ _); reflexivity.
  - unfold handle. by rewrite Hb.
Qed.

End Paths.

(** * Further properties of the projection *)

(** X11: the loop of main.go:245-249 computes a restriction. The output
    is the backend mapping restricted to the allowlisted names, with the
    typed response string under ["response"] when the restriction has no
    such key, and with ["response"] reassigned to the stripped string
    when the flag is on. The order of the allowlist and repeated names
    in it make no difference. *)
Theorem filteredResponse_is_restriction (config : Config) (resp : OllamaResponse)
    (m : gmap string Value) :
  filteredResponse config resp m
  = (if StripNewline config
     then <["response" := VString (ReplaceAll (Response resp) LF " ")]>
     else id)
      (filter (λ kv, kv.1 ∈ ResponseFields config) m
       ∪ {[ "response" := VString (Response resp) ]}) ∧
  ∀ config',
    (∀ k, k ∈ ResponseFields config ↔ k ∈ ResponseFields config') →
    StripNewline config = StripNewline config' →
    filteredResponse config resp m = filteredResponse config' resp m.
Proof.
  assert (∀ k, (filter (λ kv : string * Value, kv.1 ∈ ResponseFields config) m
                ∪ {[ "response" := VString (Response resp) ]}) !! k
               = copied_fields config resp m !! k) as Hcopy.
  { intros k.
    assert (({[ "response" := VString (Response resp) ]} : gmap string Value) !! k
            = if decide (k = "response") then Some (VString (Response resp)) else None)
      as Hsingle.
    { destruct (decide (k = "response")) as [->|Hne];
        [apply lookup_singleton_eq|by apply lookup_singleton_ne]. }
    rewrite copied_fields_lookup, lookup_union, map_lookup_filter, Hsingle.
    destruct (decide (k ∈ ResponseFields config)); destruct (m !! k); cbn;
      rewrite ?option_guard_True, ?option_guard_False by done; cbn;
      destruct (decide (k = "response")); reflexivity. }
  split.
  - apply map_eq. intros k. unfold filteredResponse.
    destruct (StripNewline config).
    + rewrite !lookup_insert. case_decide; [done|]. by rewrite Hcopy.
    + unfold id. by rewrite Hcopy.
  - intros config' Hsame Hflag. apply map_eq. intros k.
    destruct (decide (k = "response")) as [->|Hne].
    + rewrite !filteredResponse_response, <- Hflag.
      destruct (StripNewline config); [done|].
      destruct (decide ("response" ∈ ResponseFields config)) as [Hin|Hnin].
      * by rewrite (decide_True (P := "response" ∈ ResponseFields config'))
          by (by apply Hsame).
      * by rewrite (decide_False (P := "response" ∈ ResponseFields config'))
          by (by rewrite <- Hsame).
    + rewrite !filteredResponse_other by done.
      destruct (decide (k ∈ ResponseFields config)) as [Hin|Hnin].
      * by rewrite decide_True by (by apply Hsame).
      * by rewrite decide_False by (by rewrite <- Hsame).
Qed.

(** * Further properties of the registry *)

Lemma length_append (s t : string) :
  String.length (s +:+ t) = (String.length s + String.length t)%nat.
Proof.
  induction s as [|c s IH]; [reflexivity|].
  change (S (String.length (s +:+ t)) = S (String.length s + String.length t)).
  by rewrite IH.
Qed.

Lemma substring_prefix (s t : string) :
  String.substring 0 (String.length s) (s +:+ t) = s.
Proof.
  induction s as [|c s IH].
  - destruct t; reflexivity.
  - change (String c (String.substring 0 (String.length s) (s +:+ t)) = String c s).
    by rewrite IH.
Qed.

Lemma ext_scan_suffix (path e : string) :
  ext_scan path = Some e → ∃ stem, path = stem +:+ e.
Proof.
  revert e. induction path as [|c rest IH]; intros e; [done|].
  cbn [ext_scan]. destruct (ext_scan rest) as [e'|].
  - intros [= <-]. destruct (IH e' eq_refl) as [stem ->].
    by exists (String c stem).
  - destruct (bool_decide (c = "."%char)); [intros [= <-]; by exists EmptyString|].
    destruct (bool_decide (c = "/"%char)); [|done].
    intros [= <-]. exists (String c rest). by rewrite append_empty_r.
Qed.

Lemma ext_scan_json (stem : string) : ext_scan (stem +:+ ".json") = Some ".json".
Proof.
  induction stem as [|c stem IH]; [reflexivity|].
  change (ext_scan (String c (stem +:+ ".json")) = Some ".json").
  cbn [ext_scan]. by rewrite IH.
Qed.

(** A file name has the extension [.json] exactly when it ends in it,
    and the slice of main.go:107 is then the rest of the name. *)
Lemma Ext_json_iff (templateName : string) :
  filepath_Ext templateName = ".json" ↔ ∃ stem, templateName = stem +:+ ".json".
Proof.
  unfold filepath_Ext. split.
  - destruct (ext_scan templateName) as [e|] eqn:E; [|done].
    simpl. intros ->. by apply ext_scan_suffix.
  - intros [stem ->]. by rewrite ext_scan_json.
Qed.

Lemma template_key (stem : string) :
  String.substring 0 (String.length (stem +:+ ".json") - String.length ".json")
    (stem +:+ ".json") = stem.
Proof.
  rewrite length_append, Nat.add_sub. apply substring_prefix.
Qed.

Section RegistryFacts.
Context `{Library}.

Lemma load_file_lookup (templates : gmap string Template)
    (file : string * option string) (k : string) (t : Template) :
  load_file templates file !! k = Some t →
  templates !! k = Some t ∨
  ∃ content, file = (k +:+ ".json", Some content) ∧
             template_Parse (k +:+ ".json") content = Some t.
Proof.
  destruct file as [name content]. unfold load_file. cbn [fst snd].
  destruct (bool_decide (filepath_Ext name = ".json")) eqn:E; [|by left].
  apply bool_decide_eq_true, Ext_json_iff in E as [stem ->].
  destruct content as [content|]; [|by left].
  destruct (template_Parse (stem +:+ ".json") content) as [tmpl|] eqn:Hp; [|by left].
  rewrite template_key. destruct (decide (stem = k)) as [->|Hne].
  - rewrite lookup_insert_eq. intros [= ->]. right. eauto.
  - rewrite lookup_insert_ne by done. by left.
Qed.

Lemma load_file_other (templates : gmap string Template)
    (file : string * option string) (k : string) :
  file.1 ≠ k +:+ ".json" →
  load_file templates file !! k = templates !! k.
Proof.
  destruct file as [name content]. unfold load_file. cbn [fst snd]. intros Hne.
  destruct (bool_decide (filepath_Ext name = ".json")) eqn:E; [|done].
  apply bool_decide_eq_true, Ext_json_iff in E as [stem ->].
  destruct content as [content|]; [|done].
  destruct (template_Parse (stem +:+ ".json") content) as [tmpl|]; [|done].
  rewrite template_key. apply lookup_insert_ne. by intros ->.
Qed.

Lemma load_file_parsed (templates : gmap string Template) (k content : string)
    (t : Template) :
  template_Parse (k +:+ ".json") content = Some t →
  load_file templates (k +:+ ".json", Some content) !! k = Some t.
Proof.
  intros Hp. unfold load_file. cbn [fst snd].
  rewrite bool_decide_eq_true_2 by (apply Ext_json_iff; eauto).
  rewrite Hp, template_key. apply lookup_insert_eq.
Qed.

Lemma foldl_load_file_lookup (files : list (string * option string))
    (templates : gmap string Template) (k : string) (t : Template) :
  foldl load_file templates files !! k = Some t →
  templates !! k = Some t ∨
  ∃ content, (k +:+ ".json", Some content) ∈ files ∧
             template_Parse (k +:+ ".json") content = Some t.
Proof.
  revert templates. induction files as [|file files IH]; intros templates; [by left|].
  cbn [foldl]. intros [Hk|(content & Hin & Hp)]%IH.
  - apply load_file_lookup in Hk as [Hk|(content & -> & Hp)]; [by left|].
    right. exists content. split; [apply elem_of_cons; by left|done].
  - right. exists content. split; [apply elem_of_cons; by right|done].
Qed.

Lemma foldl_load_file_other (files : list (string * option string))
    (templates : gmap string Template) (k : string) :
  k +:+ ".json" ∉ files.*1 →
  foldl load_file templates files !! k = templates !! k.
Proof.
  revert templates. induction files as [|file files IH]; intros templates Hk; [done|].
  cbn [foldl]. rewrite fmap_cons in Hk. apply not_elem_of_cons in Hk as [Hne Hk].
  rewrite IH by done. by apply load_file_other.
Qed.

Lemma foldl_load_file_parsed (files : list (string * option string))
    (templates : gmap string Template) (k content : string) (t : Template) :
  NoDup files.*1 →
  (k +:+ ".json", Some content) ∈ files →
  template_Parse (k +:+ ".json") content = Some t →
  foldl load_file templates files !! k = Some t.
Proof.
  revert templates. induction files as [|file files IH]; intros templates Hnd Hin Hp.
  - by apply elem_of_nil in Hin.
  - rewrite fmap_cons in Hnd. apply NoDup_cons in Hnd as [Hfresh Hnd].
    cbn [foldl]. apply elem_of_cons in Hin as [<-|Hin].
    + rewrite foldl_load_file_other by done. by apply load_file_parsed.
    + by apply IH.
Qed.

End RegistryFacts.

Section RegistryTheorems.
Context `{Library}.

(** The load of a directory from which at least one template comes. *)
Lemma load_existing (templatesDir : string) (fs : FileSystem)
    (files : list (string * option string)) :
  dirs fs !! templatesDir = Some files →
  ReadDir_fails fs = false →
  size (foldl load_file ∅ files) ≠ 0%nat →
  loadAndCacheTemplates templatesDir fs
  = (Ok {| Templates := foldl load_file ∅ files; Params := None; Fields := None;
           RequestTimeouts := None |}, fs).
Proof.
  intros Hdir Hread Hsize. unfold loadAndCacheTemplates.
  rewrite Hdir, Hread, Hdir. by rewrite bool_decide_eq_false_2.
Qed.

(** X12: a readable file [k.json] that parses is registered under [k],
    its name without the extension, whatever else the directory holds:
    files that cannot be read or parsed, and files with another
    extension, are skipped without stopping the load. Nothing is written
    to the directory in this case. *)
Theorem parsable_file_is_registered (templatesDir : string) (fs : FileSystem)
    (files : list (string * option string)) (k content : string) (t : Template) :
  dirs fs !! templatesDir = Some files →
  ReadDir_fails fs = false →
  NoDup files.*1 →
  (k +:+ ".json", Some content) ∈ files →
  template_Parse (k +:+ ".json") content = Some t →
  ∃ tc,
    loadAndCacheTemplates templatesDir fs = (Ok tc, fs) ∧
    Templates tc !! k = Some t.
Proof.
  intros Hdir Hread Hnd Hin Hp. unfold loadAndCacheTemplates.
  rewrite Hdir, Hread, Hdir.
  pose proof (foldl_load_file_parsed files ∅ k content t Hnd Hin Hp) as Hk.
  rewrite bool_decide_eq_false_2.
  - eexists. split; [reflexivity|]. exact Hk.
  - intros Hsize. apply map_size_empty_iff in Hsize.
    rewrite Hsize in Hk. by rewrite lookup_empty in Hk.
Qed.

(** X13: every entry of the registry has a source: a readable file
    [k.json] of the directory that parses to it, or, for ["default"],
    the built-in template. No other key is ever registered. *)
Theorem registry_entry_has_source (templatesDir : string) (fs fs' : FileSystem)
    (tc : TemplateConfig) (k : string) (t : Template) :
  loadAndCacheTemplates templatesDir fs = (Ok tc, fs') →
  Templates tc !! k = Some t →
  (∃ files content,
     dirs fs !! templatesDir = Some files ∧
     (k +:+ ".json", Some content) ∈ files ∧
     template_Parse (k +:+ ".json") content = Some t) ∨
  (k = "default" ∧ template_Parse "default" defaultTemplateContent = Some t).
Proof.
  unfold loadAndCacheTemplates.
  destruct (dirs fs !! templatesDir) as [files|] eqn:Edir.
  - destruct (ReadDir_fails fs); [done|]. rewrite Edir.
    destruct (bool_decide (size (foldl load_file ∅ files) = 0%nat)) eqn:Esize.
    + apply bool_decide_eq_true, map_size_empty_iff in Esize. rewrite Esize.
      destruct (template_Parse "default" defaultTemplateContent) as [tmpl|] eqn:Hd;
        [|done].
      intros [= <- _]. cbn [Templates]. rewrite insert_empty.
      intros [<- <-]%lookup_singleton_Some. by right.
    + intros [= <- _]. cbn [Templates].
      intros [Hk|(content & Hin & Hp)]%foldl_load_file_lookup.
      * by rewrite lookup_empty in Hk.
      * left. eauto.
  - destruct (MkdirAll_fails fs); [done|].
    change (ReadDir_fails _) with (ReadDir_fails fs).
    destruct (ReadDir_fails fs); [done|].
    change (dirs {| dirs := ?d; MkdirAll_fails := _; ReadDir_fails := _;
                    WriteFile_fails := _ |}) with d.
    rewrite lookup_insert_eq.
    change (foldl load_file ∅ []) with (∅ : gmap string Template).
    rewrite map_size_empty, bool_decide_eq_true_2 by done.
    destruct (template_Parse "default" defaultTemplateContent) as [tmpl|] eqn:Hd;
      [|done].
    intros [= <- _]. cbn [Templates]. rewrite insert_empty.
    intros [<- <-]%lookup_singleton_Some. by right.
Qed.

(** X14: files that cannot be read or parsed are never fatal. Once the
    directory exists (or can be created) and can be listed, the load
    succeeds whatever its entries are, given that the built-in template
    parses. *)
Theorem bad_files_are_not_fatal (templatesDir : string) (fs : FileSystem)
    (tmpl : Template) :
  template_Parse "default" defaultTemplateContent = Some tmpl →
  (dirs fs !! templatesDir = None → MkdirAll_fails fs = false) →
  ReadDir_fails fs = false →
  ∃ tc fs', loadAndCacheTemplates templatesDir fs = (Ok tc, fs').
Proof.
  intros Hd Hmk Hread. unfold loadAndCacheTemplates.
  destruct (dirs fs !! templatesDir) as [files|] eqn:Edir.
  - rewrite Hread, Edir. destruct (bool_decide _); [rewrite Hd|]; eauto.
  - rewrite Hmk by done. change (ReadDir_fails _) with (ReadDir_fails fs).
    rewrite Hread.
    change (dirs {| dirs := ?d; MkdirAll_fails := _; ReadDir_fails := _;
                    WriteFile_fails := _ |}) with d.
    rewrite lookup_insert_eq. destruct (bool_decide _); [rewrite Hd|]; eauto.
Qed.


(** X16: the bootstrap is stable. After a start that found no template
    and wrote [default.json], the next start on the resulting directory
    loads ["default"] from that file, and neither adds the built-in
    template nor writes anything. *)
Theorem second_start_loads_written_default (templatesDir : string)
    (fs : FileSystem) (tmpl tmpl' : Template) :
  template_Parse "default" defaultTemplateContent = Some tmpl →
  template_Parse "default.json" defaultTemplateContent = Some tmpl' →
  (dirs fs !! templatesDir = None → MkdirAll_fails fs = false) →
  ReadDir_fails fs = false →
  WriteFile_fails fs = false →
  (∀ files name content,
     dirs fs !! templatesDir = Some files → (name, Some content) ∈ files →
     filepath_Ext name = ".json" → template_Parse name content = None) →
  ∃ tc fs' tc',
    loadAndCacheTemplates templatesDir fs = (Ok tc, fs') ∧
    loadAndCacheTemplates templatesDir fs' = (Ok tc', fs') ∧
    Templates tc' = {[ "default" := tmpl' ]}.
Proof.
  intros Hd Hd' Hmk Hread Hw Hnone.
  set (files := default [] (dirs fs !! templatesDir)).
  assert (∀ name content, (name, Some content) ∈ files →
            filepath_Ext name = ".json" → template_Parse name content = None)
    as Hnone'.
  { intros name content. unfold files.
    destruct (dirs fs !! templatesDir) as [l|] eqn:E; cbn [default].
    - by apply Hnone.
    - by intros ?%elem_of_nil. }
  assert (foldl load_file ∅
            (write_file files "default.json" defaultTemplateContent)
          = {[ "default" := tmpl' ]}) as Hsecond.
  { unfold write_file. rewrite foldl_app.
    rewrite (foldl_load_file_none (filter _ files) ∅).
    - cbn [foldl]. unfold load_file. cbn [fst snd].
      rewrite bool_decide_eq_true_2 by reflexivity. rewrite Hd'.
      change (String.substring _ _ _) with "default". apply insert_empty.
    - intros name content [_ Hin]%list_elem_of_filter. by apply Hnone'. }
  assert (size ({[ "default" := tmpl' ]} : gmap string Template) ≠ 0%nat) as Hsize
    by (by rewrite map_size_singleton).
  unfold loadAndCacheTemplates at 1.
  destruct (dirs fs !! templatesDir) as [l|] eqn:Edir.
  - rewrite Hread, Edir.
    rewrite (foldl_load_file_none l ∅) by (intros ???; by eapply Hnone).
    rewrite map_size_empty, bool_decide_eq_true_2 by done. rewrite Hd, Hw.
    eexists _, _, _. split; [reflexivity|].
    split; [apply load_existing with
              (files := write_file files "default.json" defaultTemplateContent)|].
    + apply lookup_insert_eq.
    + done.
    + by rewrite Hsecond.
    + exact Hsecond.
  - rewrite Hmk by done. change (ReadDir_fails _) with (ReadDir_fails fs).
    rewrite Hread.
    change (dirs {| dirs := ?d; MkdirAll_fails := _; ReadDir_fails := _;
                    WriteFile_fails := _ |}) with d.
    rewrite lookup_insert_eq.
    change (foldl load_file ∅ []) with (∅ : gmap string Template).
    rewrite map_size_empty, bool_decide_eq_true_2 by done. rewrite Hd.
    change (WriteFile_fails _) with (WriteFile_fails fs). rewrite Hw.
    eexists _, _, _. split; [reflexivity|].
    split; [apply load_existing with
              (files := write_file files "default.json" defaultTemplateContent)|].
    + apply lookup_insert_eq.
    + done.
    + by rewrite Hsecond.
    + exact Hsecond.
Qed.

End RegistryTheorems.

(** * The stream decoder *)

Module JsonFacts.
Import Json.

(** After a closing bracket that does not end the top-level value, a
    space does not end it either. *)
Lemma after_bracket s c code s' :
  Json.byte_is c "}" || Json.byte_is c "]" = true →
  call_step s c = (code, s') →
  match code with
  | scanEnd | scanError => True
  | scanEndObject | scanEndArray =>
      ∀ code' s'', stateEndValue s' " " = (code', s'') →
        code' = scanEnd ∨ is_scanEnd (call_step s'' " ").1 = false
  | _ => is_scanEnd (call_step s' " ").1 = false
  end.
Proof.
  intros Hc.
  assert (c = "}"%char ∨ c = "]"%char) as [-> | ->].
  { apply orb_true_iff in Hc as [Hc|Hc]; apply bool_decide_eq_true in Hc;
      injection Hc as ->; auto. }
  all: destruct s as [f top stack e]; destruct f; destruct stack as [|[] [|? ?]];
    cbn; intros [= <- <-]; cbn; try done;
    intros ?? [= <- <-]; cbn; auto.
Qed.

Lemma readValue_scan_stops s value rest scanp :
  ends_with_bracket value = true →
  readValue_scan s value scanp = Some (scanp + String.length value)%nat →
  readValue_scan s (value +:+ rest) scanp = Some (scanp + String.length value)%nat.
Proof.
  revert s scanp. induction value as [|c value IH]; intros s scanp Hend; [done|].
  change (String c value +:+ rest) with (String c (value +:+ rest)).
  cbn [readValue_scan String.length].
  destruct (call_step s c) as [code s'] eqn:Hstep.
  destruct value as [|c' value'].
  - pose proof (after_bracket s c code s' Hend Hstep) as Hafter.
    change (EmptyString +:+ rest) with rest. cbn [readValue_scan String.length].
    destruct code; try (rewrite Hafter; discriminate); try discriminate;
      try (intros [= ?]; lia).
    all: destruct (stateEndValue s' " ") as [code' s''] eqn:Hsp;
      destruct (Hafter _ _ eq_refl) as [-> | Hno]; [done|];
      rewrite Hno; by destruct code'.
  - assert (ends_with_bracket (String c' value') = true) as Hend' by exact Hend.
    replace (scanp + S (String.length (String c' value')))%nat
      with (S scanp + String.length (String c' value'))%nat by lia.
    destruct code; try discriminate; try (by apply IH);
      try (intros [= ?]; cbn [String.length] in *; lia).
    all: destruct (stateEndValue s' " ") as [code' s''];
      destruct code'; try (by apply IH);
      intros [= ?]; cbn [String.length] in *; lia.
Qed.

Lemma substring_append (value rest : string) :
  String.substring 0 (String.length value) (value +:+ rest) = value.
Proof.
  induction value as [|c value IH]; cbn [String.length].
  - by destruct rest.
  - change (String c value +:+ rest) with (String c (value +:+ rest)).
    cbn [String.substring]. by rewrite IH.
Qed.

Lemma substring_whole (value : string) :
  String.substring 0 (String.length value) value = value.
Proof.
  induction value as [|c value IH]; [done|].
  cbn [String.length String.substring]. by rewrite IH.
Qed.

Lemma Decode_stops_after_value {A} (unmarshal : string -> option A) value rest :
  readValue value = Some (String.length value) →
  ends_with_bracket value = true →
  Decoder_Decode unmarshal (value +:+ rest) = Decoder_Decode unmarshal value.
Proof.
  intros Hread Hend. unfold Decoder_Decode, readValue in *.
  rewrite (readValue_scan_stops reset value rest 0 Hend Hread), Hread.
  cbn [Nat.add]. by rewrite substring_append, substring_whole.
Qed.
End JsonFacts.

Section Stream.
Context `{Library}.

(** X20: the bytes after the first JSON value of a body are never read.
    When the request decoder is the stream decoder, a request whose
    body is a complete JSON object or array followed by any bytes is
    served exactly as the request with the object or array alone: the
    same response, the same call of the backend, the same final state. *)
Theorem trailing_bytes_are_ignored
    (unmarshal : string -> option (gmap string Value)) tc name r r' st
    (rest : string) :
  (∀ body, json_Decode body = Json.Decoder_Decode unmarshal body) →
  Json.readValue (Body r) = Some (String.length (Body r)) →
  ends_with_bracket (Body r) = true →
  Body r' = Body r +:+ rest →
  Header_Get (Header r') "Authorization" = Header_Get (Header r) "Authorization" →
  ServeHTTP (templateHandler tc name) r' st
  = ServeHTTP (templateHandler tc name) r st.
Proof.
  intros Hstream Hread Hend Hbody Hh.
  assert (json_Decode (Body r') = json_Decode (Body r)) as Hd.
  { rewrite !Hstream, Hbody. by apply JsonFacts.Decode_stops_after_value. }
  unfold ServeHTTP. f_equal.
  unfold templateHandler, authenticate, bind, get_config. cbn. rewrite Hh.
  destruct (bool_decide _); cbn.
  - destruct (slice_from _ _); reflexivity.
  - unfold handle. by rewrite Hd.
Qed.

End Stream.

(** * Startup *)

Lemma wrap_int64_id (x : Z) :
  wrap_int64 x = x ↔ - 2 ^ 63 ≤ x < 2 ^ 63.
Proof.
  unfold wrap_int64. split.
  - intros Hx. pose proof (Z.mod_pos_bound (x + 2 ^ 63) (2 ^ 64) eq_refl). lia.
  - intros Hx. rewrite Z.mod_small by lia. lia.
Qed.

(** X17: the timeout of the backend call is the configured number of
    seconds exactly for values from -9223372036 to 9223372036; outside
    this range the product with [time.Second] overflows [int64] and the
    deadline is some other duration. *)
Theorem timeout_exact_iff_in_range (config : Config) (requestBody : string) :
  Deadline (ollama_request config requestBody)
  = Some (RequestTimeout config * 1000000000) ↔
  -9223372036 ≤ RequestTimeout config ≤ 9223372036.
Proof.
  unfold ollama_request. cbn [Deadline]. unfold seconds. split.
  - intros [= Hx]. apply wrap_int64_id in Hx. lia.
  - intros Hn. f_equal. apply wrap_int64_id. lia.
Qed.

Section Main.
Context `{Library} `{Startup}.





End Main.

(** * Runs of the further properties on the examples *)

Lemma unauthorized_request_is_inert_witness :
  ∃ out st',
    ServeHTTP (templateHandler (H := example_library) example_registry "default")
      (post ["Bearer wrong"] body_query) example_state = (out, st') ∧
    sent st' = [] ∧ out = Responded unauthorized.
Proof.
  destruct (unauthorized_request_is_inert (H := example_library) example_registry
              "default" (post ["Bearer wrong"] body_query) example_state)
    as (out & st' & Hrun & _ & Hs & Hne & _); [vm_compute; discriminate|].
  exists out, st'. split; [exact Hrun|]. split; [exact Hs|].
  apply Hne. vm_compute. discriminate.
Defined.

Lemma nil_params_drop_connection_witness :
  ServeHTTP (templateHandler (H := example_library) example_registry "default")
    (post ["Bearer secret"] body_query) example_state_nil
  = (ConnectionAborted, set_written example_state_nil None) ∧
  ServeHTTP (templateHandler (H := example_library) broken_registry "broken")
    (post ["Bearer secret"] body_query) example_state_nil
  = (Responded (internal_error "Template processing failed"),
     set_written example_state_nil
       (Some (internal_error "Template processing failed"))).
Proof.
  split.
  - apply (nil_params_drop_connection (H := example_library) example_registry
             "default" (post ["Bearer secret"] body_query) example_state_nil
             {[ "query" := VString joke ]} joke);
      vm_compute; reflexivity.
  - apply (nil_params_drop_connection (H := example_library) broken_registry
             "broken" (post ["Bearer secret"] body_query) example_state_nil
             {[ "query" := VString joke ]} joke);
      vm_compute; reflexivity.
Defined.

Lemma render_failure_is_500_witness :
  ServeHTTP (templateHandler (H := example_library) broken_registry "broken")
    (post ["Bearer secret"] body_query) example_state
  = (Responded (internal_error "Template processing failed"),
     set_written example_state (Some (internal_error "Template processing failed"))).
Proof.
  apply (render_failure_is_500 (H := example_library) broken_registry "broken"
           (post ["Bearer secret"] body_query) example_state
           {[ "query" := VString joke ]} joke broken_template
           "can't evaluate field Name in type main.TemplateData");
    vm_compute; reflexivity.
Defined.

Lemma payload_merges_static_params_witness :
  ∃ payload,
    OllamaParams
      (config (templateHandler (H := example_library) example_registry "default"
                 (post ["Bearer secret"] body_query) example_state).2)
    = Some payload ∧
    payload !! "stream" = Some (VBool false).
Proof.
  destruct (payload_merges_static_params (H := example_library) example_registry
              "default" (post ["Bearer secret"] body_query) example_state
              {[ "query" := VString joke ]} joke
              "tell me a joke Default template response."
              {[ "stream" := VBool false ]})
    as (payload & Hp & _ & _ & Hother & _); [vm_compute; reflexivity..|].
  exists payload. split; [exact Hp|].
  rewrite Hother by discriminate. reflexivity.
Defined.

Lemma payload_independent_of_history_witness :
  let handler := templateHandler (H := example_library) example_registry "default" in
  let alone := (handler (post ["Bearer secret"] body_query) example_state).2 in
  (let st1 := (handler (post ["Bearer secret"] body_model) example_state).2 in
   let st2 := (handler (post ["Bearer secret"] body_query) st1).2 in
   config st2 = config alone ∧
   drop (length (sent st1)) (sent st2)
   = drop (length (sent example_state)) (sent alone)) ∧
  (let st1 := (handler (post ["Bearer wrong"] body_model) example_state).2 in
   let st2 := (handler (post ["Bearer secret"] body_query) st1).2 in
   config st2 = config alone ∧
   drop (length (sent st1)) (sent st2)
   = drop (length (sent example_state)) (sent alone)).
Proof.
  split.
  - apply (payload_independent_of_history (H := example_library) example_registry
             "default" "default"
             (post ["Bearer secret"] body_model) (post ["Bearer secret"] body_query)
             example_state {[ "query" := VString joke ]} joke
             "tell me a joke Default template response."
             {[ "stream" := VBool false ]});
      vm_compute; reflexivity.
  - apply (payload_independent_of_history (H := example_library) example_registry
             "default" "default"
             (post ["Bearer wrong"] body_model) (post ["Bearer secret"] body_query)
             example_state {[ "query" := VString joke ]} joke
             "tell me a joke Default template response."
             {[ "stream" := VBool false ]});
      vm_compute; reflexivity.
Defined.

Lemma successful_exchange_witness :
  ∃ st' req,
    ServeHTTP (templateHandler (H := example_library) example_registry "default")
      (post ["Bearer secret"] body_query) example_state
    = (Responded {| StatusCode := 200; ContentType := "application/json";
                    Payload := "{...}" |}, st') ∧
    sent st' = [req] ∧
    Method req = "POST" ∧
    URL req = "http://localhost:11434/api/generate" ∧
    Body req = "{...}".
Proof.
  apply (successful_exchange (H := example_library) example_registry "default"
           (post ["Bearer secret"] body_query) example_state
           {[ "query" := VString joke ]} joke
           "tell me a joke Default template response."
           {[ "stream" := VBool false ]} "{...}" backend_body
           backend_response backend_map "{...}");
    vm_compute; reflexivity.
Defined.

Lemma backend_failure_is_empty_200_witness :
  ∃ st',
    ServeHTTP (templateHandler (H := offline_library) example_registry "default")
      (post ["Bearer secret"] body_query) example_state
    = (Responded empty_ok, st') ∧
    written st' = None ∧
    sent st' = [ollama_request example_config "{...}"].
Proof.
  apply (backend_failure_is_empty_200 (H := offline_library) example_registry
           "default" (post ["Bearer secret"] body_query) example_state
           {[ "query" := VString joke ]} joke
           "tell me a joke Default template response."
           {[ "stream" := VBool false ]} "{...}");
    vm_compute; first [reflexivity | exact I].
Defined.

Lemma parsable_file_is_registered_witness :
  ∃ tc,
    loadAndCacheTemplates (H := example_library) "./templates" lighting_fs
    = (Ok tc, lighting_fs) ∧
    Templates tc !! "lighting" = Some lighting_template.
Proof.
  apply (parsable_file_is_registered (H := example_library) "./templates"
           lighting_fs lighting_files "lighting" "{{.Query}} lights"
           lighting_template).
  - vm_compute. reflexivity.
  - reflexivity.
  - apply (bool_decide_unpack _). vm_compute. exact I.
  - apply (bool_decide_unpack _). vm_compute. exact I.
  - vm_compute. reflexivity.
Defined.

Lemma registry_entry_has_source_witness :
  (∃ files content,
     dirs lighting_fs !! "./templates" = Some files ∧
     ("lighting" +:+ ".json", Some content) ∈ files ∧
     template_Parse (Library := example_library) ("lighting" +:+ ".json") content
     = Some lighting_template) ∨
  ("lighting" = "default" ∧
   template_Parse (Library := example_library) "default" defaultTemplateContent
   = Some lighting_template).
Proof.
  apply (registry_entry_has_source (H := example_library) "./templates"
           lighting_fs lighting_fs lighting_registry "lighting" lighting_template);
    vm_compute; reflexivity.
Defined.

Lemma bad_files_are_not_fatal_witness :
  ∃ tc fs',
    loadAndCacheTemplates (H := example_library) "./templates" example_fs
    = (Ok tc, fs').
Proof.
  apply (bad_files_are_not_fatal (H := example_library) "./templates" example_fs
           default_template); [reflexivity| |reflexivity].
  vm_compute. discriminate.
Defined.

Lemma second_start_loads_written_default_witness :
  ∃ tc fs' tc',
    loadAndCacheTemplates (H := example_library) "./templates" empty_fs = (Ok tc, fs') ∧
    loadAndCacheTemplates (H := example_library) "./templates" fs' = (Ok tc', fs') ∧
    Templates tc'
    = {[ "default" :=
           {| Name := "default.json";
              Execute := exec [FieldNode "Query"; TextNode " Default template response."] |} ]}.
Proof.
  apply (second_start_loads_written_default (H := example_library) "./templates"
           empty_fs default_template); try reflexivity.
  intros files name content Hdir. vm_compute in Hdir. discriminate.
Defined.


Lemma only_authorization_and_body_matter_witness :
  ServeHTTP (templateHandler (H := example_library) example_registry "default")
    (post ["Bearer secret"] body_query) example_state
  = ServeHTTP (templateHandler (H := example_library) example_registry "default")
      {| Method := "GET"; URL := "/anything";
         Header := {[ "Authorization" := ["Bearer secret"];
                      "Content-Type" := ["text/plain"] ]};
         Body := body_query; RemoteAddr := "192.168.1.9:80"; Deadline := None |}
      example_state.
Proof.
  apply (only_authorization_and_body_matter (H := example_library));
    vm_compute; reflexivity.
Defined.

Lemma trailing_bytes_are_ignored_witness :
  ServeHTTP (templateHandler (H := stream_library) example_registry "default")
    (post ["Bearer secret"] body_trailing) example_state
  = ServeHTTP (templateHandler (H := stream_library) example_registry "default")
      (post ["Bearer secret"] body_query) example_state.
Proof.
  apply (trailing_bytes_are_ignored (H := stream_library)
           (fun value => example_requests !! value) example_registry "default"
           (post ["Bearer secret"] body_query)
           (post ["Bearer secret"] body_trailing) example_state
           " trailing garbage");
    [intros body; reflexivity | vm_compute; reflexivity..].
Defined.
